(** * A shallow embedding of the codec registry and the minimal SFU relay

    The development follows the Go sources:
    - the media engine of package [webrtc] (the codec registry
      [MediaEngine], [PopulateFromSDP], the [NewRTP*Codec] constructors);
    - the two [sfu-minimal] example programs ([preferredCodec],
      [firstCodecOfType], the forwarding loop and the subscriber loop).

    Integers of fixed width are kept in [Z] with the wrap-around written
    out, Go strings are [string], slices are lists, a [nil] interface value
    is [None]. *)

From Stdlib Require Import ZArith List String Ascii Bool Lia DecimalString.
Import ListNotations.
Local Open Scope string_scope.
Local Open Scope list_scope.
Local Open Scope Z_scope.

Set Implicit Arguments.

(** ** Go's [strconv.Atoi] *)

Module strconv.

Definition isDigit (ch : ascii) : bool :=
  ((48 <=? nat_of_ascii ch) && (nat_of_ascii ch <=? 57))%nat.

(** The digit loop of [Atoi]: [n = n*10 + int(ch - '0')], a syntax error
    on the first byte that is not a decimal digit. *)
Fixpoint digits (s : string) (n : Z) : option Z :=
  match s with
  | EmptyString => Some n
  | String ch rest =>
      if isDigit ch
      then digits rest (n * 10 + (Z.of_nat (nat_of_ascii ch) - 48))
      else None
  end.

Definition isSign (ch : ascii) : bool :=
  Ascii.eqb ch "-"%char || Ascii.eqb ch "+"%char.

(** The [int] of the Go programs is 64 bits wide. *)
Definition minInt : Z := - 2 ^ 63.
Definition maxInt : Z := 2 ^ 63 - 1.

(** [Atoi s]: an optional sign, then one or more decimal digits; the
    value must fit [int].  [None] stands for the returned [*NumError]. *)
Definition Atoi (s : string) : option Z :=
  match s with
  | EmptyString => None
  | String ch rest =>
      let body := if isSign ch then rest else s in
      match body with
      | EmptyString => None
      | _ =>
          match digits body 0 with
          | None => None
          | Some n =>
              let v := if Ascii.eqb ch "-"%char then - n else n in
              if (minInt <=? v) && (v <=? maxInt) then Some v else None
          end
      end
  end.

(** [Itoa n]: the decimal text of [n], with a [-] for a negative number
    and no leading zero. *)
Definition Itoa (n : Z) : string := NilZero.string_of_int (Z.to_int n).

End strconv.

(** The conversion [uint8(pt)] of an [int]: the low eight bits. *)
Definition uint8 (pt : Z) : Z := pt mod 256.

(** ** The part of [pion/sdp] that the registry consumes *)

Module sdp.

(** [sdp.Codec]: what a description binds to one payload type. *)
Record Codec := {
  PayloadType : Z;
  Name : string;
  ClockRate : Z;
  EncodingParameters : string;
  Fmtp : string
}.

Record MediaName := {
  Media : string;
  Formats : list string
}.

(** A media section: the formats of its [m=] line, and its [a=rtpmap] /
    [a=fmtp] attributes in structured form. *)
Record MediaDescription := {
  MediaName_ : MediaName;
  Attributes : list Codec
}.

Record SessionDescription := {
  MediaDescriptions : list MediaDescription
}.

(** The two operations of the parsing library that [PopulateFromSDP]
    calls.  They live outside this repository; every result below that
    quantifies over a [Library] holds whatever the parser does. *)
Class Library := {
  Unmarshal : string -> SessionDescription + string;
  GetCodecForPayloadType : SessionDescription -> Z -> option Codec
}.

(** The formats of a description in the order in which the two nested
    loops of [PopulateFromSDP] visit them. *)
Definition allFormats (d : SessionDescription) : list string :=
  flat_map (fun md => Formats (MediaName_ md)) (MediaDescriptions d).

End sdp.

(** ** Package [webrtc]: codecs and the media engine *)

(** [RTPCodecType] is an [int]; [iota + 1] numbers the two kinds. *)
Definition RTPCodecType := Z.
Definition RTPCodecTypeAudio : RTPCodecType := 1.
Definition RTPCodecTypeVideo : RTPCodecType := 2.

(** Two declarations that package [webrtc] makes in other files: the text
    of the error [ErrUnknownType], and the type [RTCPFeedback]. *)
Class Package := {
  ErrUnknownType_Error : string;
  RTCPFeedback : Type
}.

Definition RTPCodecType_String {pkg : Package} (t : RTPCodecType) : string :=
  if t =? RTPCodecTypeAudio then "audio"
  else if t =? RTPCodecTypeVideo then "video"
  else ErrUnknownType_Error.

(** The names for the default codecs. *)
Definition G722 := "G722".
Definition Opus := "opus".
Definition VP8 := "VP8".
Definition VP9 := "VP9".
Definition H264 := "H264".

(** [rtp.Payloader] is an interface; the values that the constructors
    attach are pointers to the empty structs of package [codecs], which a
    payloader's dynamic type identifies. *)
Inductive Payloader :=
| G722Payloader
| OpusPayloader
| VP8Payloader
| H264Payloader.

Section Engine.
Context {pkg : Package}.

Record RTPCodecCapability := {
  MimeType : string;
  ClockRate : Z;
  Channels : Z;
  SDPFmtpLine : string;
  RTCPFeedback_ : list RTCPFeedback
}.

(** [RTPCodec]; [Type] is a keyword here, the field is [Type_].  A [nil]
    payloader is [None]. *)
Record RTPCodec := {
  Capability : RTPCodecCapability;
  Type_ : RTPCodecType;
  Name : string;
  PayloadType : Z;
  Payloader_ : option Payloader
}.

Definition NewRTPCodec (codecType : RTPCodecType) (name : string)
    (clockrate channels : Z) (fmtp : string) (payloadType : Z)
    (payloader : option Payloader) : RTPCodec :=
  {| Capability := {| MimeType := (RTPCodecType_String codecType ++ "/" ++ name)%string;
                      ClockRate := clockrate;
                      Channels := channels;
                      SDPFmtpLine := fmtp;
                      RTCPFeedback_ := [] |};
     PayloadType := payloadType;
     Payloader_ := payloader;
     Type_ := codecType;
     Name := name |}.

(** [codec.SDPFmtpLine = parameters] *)
Definition setSDPFmtpLine (codec : RTPCodec) (parameters : string) : RTPCodec :=
  {| Capability := {| MimeType := MimeType (Capability codec);
                      ClockRate := ClockRate (Capability codec);
                      Channels := Channels (Capability codec);
                      SDPFmtpLine := parameters;
                      RTCPFeedback_ := RTCPFeedback_ (Capability codec) |};
     Type_ := Type_ codec;
     Name := Name codec;
     PayloadType := PayloadType codec;
     Payloader_ := Payloader_ codec |}.

Definition NewRTPG722Codec (payloadType clockrate : Z) : RTPCodec :=
  NewRTPCodec RTPCodecTypeAudio G722 clockrate 0 "" payloadType
    (Some G722Payloader).

Definition NewRTPOpusCodec (payloadType clockrate : Z) : RTPCodec :=
  NewRTPCodec RTPCodecTypeAudio Opus clockrate 2
    "minptime=10;useinbandfec=1" payloadType (Some OpusPayloader).

Definition NewRTPVP8Codec (payloadType clockrate : Z) : RTPCodec :=
  NewRTPCodec RTPCodecTypeVideo VP8 clockrate 0 "" payloadType
    (Some VP8Payloader).

Definition NewRTPVP9Codec (payloadType clockrate : Z) : RTPCodec :=
  NewRTPCodec RTPCodecTypeVideo VP9 clockrate 0 "" payloadType None.

Definition NewRTPH264Codec (payloadType clockrate : Z) : RTPCodec :=
  NewRTPCodec RTPCodecTypeVideo H264 clockrate 0
    "level-asymmetry-allowed=1;packetization-mode=1;profile-level-id=42001f"
    payloadType (Some H264Payloader).

(** [MediaEngine]: the registry, a slice of codecs in registration order. *)
Record MediaEngine := { codecs : list RTPCodec }.

(** [webrtc.MediaEngine{}] *)
Definition emptyEngine : MediaEngine := {| codecs := [] |}.

(** [RegisterCodec] appends and returns the codec's payload type; the
    updated engine is the second component. *)
Definition RegisterCodec (m : MediaEngine) (codec : RTPCodec) : Z * MediaEngine :=
  (PayloadType codec, {| codecs := codecs m ++ [codec] |}).

(** The loop of [GetCodecsByKind]: [append] every codec of the kind to a
    slice that starts [nil]. *)
Definition GetCodecsByKind (m : MediaEngine) (kind : RTPCodecType) : list RTPCodec :=
  fold_left (fun acc codec => if Type_ codec =? kind then acc ++ [codec] else acc)
            (codecs m) [].

(** The loop of [GetCodecsByName]. *)
Definition GetCodecsByName (m : MediaEngine) (codecName : string) : list RTPCodec :=
  fold_left (fun acc codec => if String.eqb (Name codec) codecName then acc ++ [codec] else acc)
            (codecs m) [].

End Engine.

(** ** The other lookups of the media engine, and the default codecs *)

(** PayloadTypes for the default codecs. *)
Definition DefaultPayloadTypeG722 : Z := 9.
Definition DefaultPayloadTypeOpus : Z := 111.
Definition DefaultPayloadTypeVP8 : Z := 96.
Definition DefaultPayloadTypeVP9 : Z := 98.
Definition DefaultPayloadTypeH264 : Z := 102.

(** [ErrCodecNotFound], the error of the two lookups of a single codec. *)
Inductive lookupError :=
| ErrCodecNotFound.

Section EngineLookups.
Context {pkg : Package}.

(** [RegisterDefaultCodecs]: five [RegisterCodec] calls, the returned
    payload types dropped. *)
Definition RegisterDefaultCodecs (m : MediaEngine) : MediaEngine :=
  let m := snd (RegisterCodec m (NewRTPOpusCodec DefaultPayloadTypeOpus 48000)) in
  let m := snd (RegisterCodec m (NewRTPG722Codec DefaultPayloadTypeG722 8000)) in
  let m := snd (RegisterCodec m (NewRTPVP8Codec DefaultPayloadTypeVP8 90000)) in
  let m := snd (RegisterCodec m (NewRTPH264Codec DefaultPayloadTypeH264 90000)) in
  let m := snd (RegisterCodec m (NewRTPVP9Codec DefaultPayloadTypeVP9 90000)) in
  m.

(** The loop of [getCodec] over [m.codecs]. *)
Fixpoint getCodecIn (cs : list RTPCodec) (payloadType : Z) : RTPCodec + lookupError :=
  match cs with
  | [] => inr ErrCodecNotFound
  | codec :: rest =>
      if PayloadType codec =? payloadType then inl codec
      else getCodecIn rest payloadType
  end.

Definition getCodec (m : MediaEngine) (payloadType : Z) : RTPCodec + lookupError :=
  getCodecIn (codecs m) payloadType.

(** The condition of the [if] of [getCodecSDP]; [Channels] is a [uint16],
    so [int(codec.Channels)] is the same number. *)
Definition sdpCondition (codec : RTPCodec) (sdpCodec : sdp.Codec) : bool :=
  String.eqb (Name codec) (sdp.Name sdpCodec)
  && (ClockRate (Capability codec) =? sdp.ClockRate sdpCodec)
  && (String.eqb (sdp.EncodingParameters sdpCodec) ""
      || String.eqb (strconv.Itoa (Channels (Capability codec)))
                    (sdp.EncodingParameters sdpCodec))
  && String.eqb (SDPFmtpLine (Capability codec)) (sdp.Fmtp sdpCodec).

(** The loop of [getCodecSDP] over [m.codecs]. *)
Fixpoint getCodecSDPIn (cs : list RTPCodec) (sdpCodec : sdp.Codec) : RTPCodec + lookupError :=
  match cs with
  | [] => inr ErrCodecNotFound
  | codec :: rest =>
      if sdpCondition codec sdpCodec then inl codec
      else getCodecSDPIn rest sdpCodec
  end.

Definition getCodecSDP (m : MediaEngine) (sdpCodec : sdp.Codec) : RTPCodec + lookupError :=
  getCodecSDPIn (codecs m) sdpCodec.

End EngineLookups.

(** Go's [strings.EqualFold], equality under Unicode case folding, is
    taken as it comes. *)
Module strings.

Class Folding := { EqualFold : string -> string -> bool }.

End strings.

(** [NewRTPCodecType] creates a [RTPCodecType] from a string. *)
Definition NewRTPCodecType {folding : strings.Folding} (r : string) : RTPCodecType :=
  if strings.EqualFold r "audio" then RTPCodecTypeAudio
  else if strings.EqualFold r "video" then RTPCodecTypeVideo
  else 0.

(** [webrtc.SessionDescription]: the description's text. *)
Record SessionDescription := { SDP : string }.

(** The errors of the programs.  Go builds them with [fmt.Errorf]; each
    constructor stands for one format string. *)
Inductive error :=
| ErrUnmarshal (e : string)            (* the error of [sdpsd.Unmarshal], passed on *)
| ErrFormatParse                       (* "format parse error" *)
| ErrNoCodecForPayloadType (pt : Z)    (* "could not find codec for payload type %d" *)
| ErrNoCodecInDescription (codecName : string)
                                       (* preferredCodec: "no %d codec in session description" *)
| ErrNoCodecsFound (what : string).    (* firstCodecOfType: "no %s codecs found" *)

Section Registry.
Context {pkg : Package} {lib : sdp.Library}.

(** The [switch payloadCodec.Name] of [PopulateFromSDP]: the codec that
    the case builds, [None] where the default case says [continue]. *)
Definition switchName (payloadCodec : sdp.Codec) (payloadType : Z) : option RTPCodec :=
  let clockRate := sdp.ClockRate payloadCodec in
  let parameters := sdp.Fmtp payloadCodec in
  if String.eqb (sdp.Name payloadCodec) G722 then
    Some (NewRTPG722Codec payloadType clockRate)
  else if String.eqb (sdp.Name payloadCodec) Opus then
    Some (NewRTPOpusCodec payloadType clockRate)
  else if String.eqb (sdp.Name payloadCodec) VP8 then
    Some (setSDPFmtpLine (NewRTPVP8Codec payloadType clockRate) parameters)
  else if String.eqb (sdp.Name payloadCodec) VP9 then
    Some (setSDPFmtpLine (NewRTPVP9Codec payloadType clockRate) parameters)
  else if String.eqb (sdp.Name payloadCodec) H264 then
    Some (setSDPFmtpLine (NewRTPH264Codec payloadType clockRate) parameters)
  else None.

(** The inner loop, [for _, format := range md.MediaName.Formats]; the
    engine is threaded through, an error ends the whole function. *)
Fixpoint populateFormats (sdpsd : sdp.SessionDescription) (m : MediaEngine)
    (formats : list string) : MediaEngine * option error :=
  match formats with
  | [] => (m, None)
  | format :: rest =>
      match strconv.Atoi format with
      | None => (m, Some ErrFormatParse)
      | Some pt =>
          let payloadType := uint8 pt in
          match sdp.GetCodecForPayloadType sdpsd payloadType with
          | None => (m, Some (ErrNoCodecForPayloadType payloadType))
          | Some payloadCodec =>
              match switchName payloadCodec payloadType with
              | None => populateFormats sdpsd m rest
              | Some codec =>
                  populateFormats sdpsd (snd (RegisterCodec m codec)) rest
              end
          end
      end
  end.

(** The outer loop, [for _, md := range sdpsd.MediaDescriptions]. *)
Fixpoint populateMedia (sdpsd : sdp.SessionDescription) (m : MediaEngine)
    (mds : list sdp.MediaDescription) : MediaEngine * option error :=
  match mds with
  | [] => (m, None)
  | md :: rest =>
      match populateFormats sdpsd m (sdp.Formats (sdp.MediaName_ md)) with
      | (m', Some err) => (m', Some err)
      | (m', None) => populateMedia sdpsd m' rest
      end
  end.

(** [PopulateFromSDP]: the receiver after the call, and the returned
    error ([None] for [nil]). *)
Definition PopulateFromSDP (m : MediaEngine) (sd : SessionDescription)
    : MediaEngine * option error :=
  match sdp.Unmarshal (SDP sd) with
  | inr err => (m, Some (ErrUnmarshal err))
  | inl sdpsd => populateMedia sdpsd m (sdp.MediaDescriptions sdpsd)
  end.

(** [preferredCodec] of the first example program. *)
Definition preferredCodec (codecName : string) (sd : SessionDescription)
    : RTPCodec + error :=
  let m := emptyEngine in
  match PopulateFromSDP m sd with
  | (_, Some err) => inr err
  | (m, None) =>
      match GetCodecsByName m codecName with
      | [] => inr (ErrNoCodecInDescription codecName)
      | codec0 :: _ => inl codec0
      end
  end.

(** The [for _, c := range codecs] of [firstCodecOfType]. *)
Fixpoint firstNamed (cs : list RTPCodec) (codecName : string) : Z + error :=
  match cs with
  | [] => inr (ErrNoCodecsFound codecName)
  | c :: rest =>
      if String.eqb (Name c) codecName then inl (PayloadType c)
      else firstNamed rest codecName
  end.

(** [firstCodecOfType] of the second example program. *)
Definition firstCodecOfType (m : MediaEngine) (codecName : string)
    (kind : RTPCodecType) : Z + error :=
  let cs := GetCodecsByKind m kind in
  match cs with
  | [] => inr (ErrNoCodecsFound (RTPCodecType_String kind))
  | _ => firstNamed cs codecName
  end.

(** A run of [RegisterCodec] calls, in the order of the list. *)
Definition registerAll (m : MediaEngine) (cs : list RTPCodec) : MediaEngine :=
  fold_left (fun m codec => snd (RegisterCodec m codec)) cs m.

End Registry.

(** ** Offers to run the code on

    The text of an offer is looked up in a table of parsed views; a
    payload type is bound to the first attribute that carries it. *)

Definition pionPackage : Package :=
  {| ErrUnknownType_Error := "unknown type";
     RTCPFeedback := (string * string)%type |}.

Definition tableUnmarshal (table : list (string * sdp.SessionDescription))
    (text : string) : sdp.SessionDescription + string :=
  match find (fun e => String.eqb (fst e) text) table with
  | Some e => inl (snd e)
  | None => inr "sdp: invalid syntax"
  end.

Definition tableCodec (d : sdp.SessionDescription) (payloadType : Z) : option sdp.Codec :=
  find (fun c => sdp.PayloadType c =? payloadType)
       (flat_map sdp.Attributes (sdp.MediaDescriptions d)).

Definition tableLibrary (table : list (string * sdp.SessionDescription)) : sdp.Library :=
  {| sdp.Unmarshal := tableUnmarshal table;
     sdp.GetCodecForPayloadType := tableCodec |}.

Definition videoSection (formats : list string) (attrs : list sdp.Codec) : sdp.MediaDescription :=
  {| sdp.MediaName_ := {| sdp.Media := "video"; sdp.Formats := formats |};
     sdp.Attributes := attrs |}.

Definition audioSection (formats : list string) (attrs : list sdp.Codec) : sdp.MediaDescription :=
  {| sdp.MediaName_ := {| sdp.Media := "audio"; sdp.Formats := formats |};
     sdp.Attributes := attrs |}.

Definition rtpmap (pt : Z) (name : string) (clock : Z) (enc fmtp : string) : sdp.Codec :=
  {| sdp.PayloadType := pt; sdp.Name := name; sdp.ClockRate := clock;
     sdp.EncodingParameters := enc; sdp.Fmtp := fmtp |}.

(** A publisher's offer: opus at 111, then VP8 at 96, VP9 at 98 and H264
    at 102, and an RTX format that the engine does not know. *)
Definition publisherText :=
  "m=audio 9 UDP/TLS/RTP/SAVPF 111; m=video 9 UDP/TLS/RTP/SAVPF 96 97 98 102".
Definition publisherParsed : sdp.SessionDescription :=
  {| sdp.MediaDescriptions :=
       [ audioSection ["111"]
           [rtpmap 111 "opus" 48000 "2" "minptime=10;useinbandfec=1"];
         videoSection ["96"; "97"; "98"; "102"]
           [rtpmap 96 "VP8" 90000 "" "";
            rtpmap 97 "rtx" 90000 "" "apt=96";
            rtpmap 98 "VP9" 90000 "" "profile-id=0";
            rtpmap 102 "H264" 90000 "" "packetization-mode=1"] ] |}.

(** A subscriber's offer with VP8 at 100. *)
Definition subscriberText := "m=video 9 UDP/TLS/RTP/SAVPF 100".
Definition subscriberParsed : sdp.SessionDescription :=
  {| sdp.MediaDescriptions :=
       [ videoSection ["100"] [rtpmap 100 "VP8" 90000 "" ""] ] |}.

(** An audio-only offer whose opus format carries its own parameters. *)
Definition audioText := "m=audio 9 UDP/TLS/RTP/SAVPF 109".
Definition audioParsed : sdp.SessionDescription :=
  {| sdp.MediaDescriptions :=
       [ audioSection ["109"]
           [rtpmap 109 "opus" 48000 "2"
              "maxplaybackrate=48000;stereo=1;useinbandfec=1"] ] |}.

(** Two video sections that both declare VP8 at 96. *)
Definition twoVideoText :=
  "m=video 9 UDP/TLS/RTP/SAVPF 96; m=video 9 UDP/TLS/RTP/SAVPF 96".
Definition twoVideoParsed : sdp.SessionDescription :=
  {| sdp.MediaDescriptions :=
       [ videoSection ["96"] [rtpmap 96 "VP8" 90000 "" ""];
         videoSection ["96"] [rtpmap 96 "VP8" 90000 "" ""] ] |}.

(** A section whose first format has no [rtpmap] and whose second format
    is not a number. *)
Definition brokenText := "m=video 9 UDP/TLS/RTP/SAVPF 97 abc".
Definition brokenParsed : sdp.SessionDescription :=
  {| sdp.MediaDescriptions := [ videoSection ["97"; "abc"] [] ] |}.

(** A section whose only format is not a number. *)
Definition malformedText := "m=video 9 UDP/TLS/RTP/SAVPF abc".
Definition malformedParsed : sdp.SessionDescription :=
  {| sdp.MediaDescriptions := [ videoSection ["abc"] [] ] |}.

Definition offers : list (string * sdp.SessionDescription) :=
  [ (publisherText, publisherParsed);
    (subscriberText, subscriberParsed);
    (audioText, audioParsed);
    (twoVideoText, twoVideoParsed);
    (brokenText, brokenParsed);
    (malformedText, malformedParsed) ].

Definition offerLibrary : sdp.Library := tableLibrary offers.

Definition publisherOffer : SessionDescription := {| SDP := publisherText |}.
Definition subscriberOffer : SessionDescription := {| SDP := subscriberText |}.
Definition audioOffer : SessionDescription := {| SDP := audioText |}.
Definition twoVideoOffer : SessionDescription := {| SDP := twoVideoText |}.
Definition brokenOffer : SessionDescription := {| SDP := brokenText |}.
Definition malformedOffer : SessionDescription := {| SDP := malformedText |}.

(** ** The relay programs: forwarding loop and subscriber loop *)

(** The error values that the forwarding loop tells apart:
    [io.ErrClosedPipe], and every other non-nil error. *)
Inductive ioError :=
| ErrClosedPipe
| ErrOther (msg : string).

Definition isErrClosedPipe (err : ioError) : bool :=
  match err with ErrClosedPipe => true | ErrOther _ => false end.

(** What the two tracks answer in one turn of the forwarding loop:
    [remoteTrack.Read(rtpBuf)] leaves the bytes [rtpBuf[:i]] or returns
    [readErr]; [localTrack.Write(rtpBuf[:i])] returns [err], consulted only
    after a successful read. *)
Record turn := {
  readResult : list Byte.byte + ioError;
  writeResult : option ioError
}.

(** The argument of [panic]. *)
Inductive panicValue :=
| PanicIO (err : ioError)
| PanicNegotiation (err : error)
| PanicPeerConnection (msg : string).

Section Programs.
Context {pkg : Package} {lib : sdp.Library}.

(** The state shared by the goroutines of one program: the [Write] calls
    made on [localTrack] with what each returned, and the engines of the
    peer connections that [localTrack] was added to. *)
Record relay := {
  written : list (list Byte.byte * option ioError);
  subscribers : list MediaEngine
}.

(** A panic in any goroutine ends the program; nothing recovers. *)
Inductive process :=
| Running (r : relay)
| Panicked (r : relay) (v : panicValue).

(** The body of the [for] of the [OnTrack] handler. *)
Definition forwardTurn (r : relay) (t : turn) : process :=
  match readResult t with
  | inr readErr => Panicked r (PanicIO readErr)
  | inl packet =>
      let r' := {| written := written r ++ [(packet, writeResult t)];
                   subscribers := subscribers r |} in
      match writeResult t with
      | Some err =>
          if negb (isErrClosedPipe err) then Panicked r' (PanicIO err)
          else Running r'
      | None => Running r'
      end
  end.

(** The forwarding loop against a script of answers; with the script
    used up the loop waits in [Read]. *)
Fixpoint forwardingLoop (r : relay) (script : list turn) : process :=
  match script with
  | [] => Running r
  | t :: rest =>
      match forwardTurn r t with
      | Running r' => forwardingLoop r' rest
      | Panicked r' v => Panicked r' v
      end
  end.

(** The two example programs differ in how they find the payload type of
    VP8 in an offer. *)
Inductive example :=
| PreferredCodecExample
| FirstCodecOfTypeExample.

Definition negotiateVP8 (which : example) (sd : SessionDescription) : Z + error :=
  match which with
  | PreferredCodecExample =>
      match preferredCodec VP8 sd with
      | inr err => inr err
      | inl codec => inl (PayloadType codec)
      end
  | FirstCodecOfTypeExample =>
      match PopulateFromSDP emptyEngine sd with
      | (_, Some err) => inr err
      | (m, None) => firstCodecOfType m VP8 RTPCodecTypeVideo
      end
  end.

(** The body of the subscriber [for] of [main]: negotiation, then the
    peer-connection calls, whose first error (if any) is [peerErr];
    every error is passed to [panic]. *)
Definition subscriberTurn (which : example) (r : relay)
    (recvOnlyOffer : SessionDescription) (peerErr : option string) : process :=
  match negotiateVP8 which recvOnlyOffer with
  | inr err => Panicked r (PanicNegotiation err)
  | inl vp8PayloadType =>
      let m := snd (RegisterCodec emptyEngine (NewRTPVP8Codec vp8PayloadType 90000)) in
      match peerErr with
      | Some msg => Panicked r (PanicPeerConnection msg)
      | None => Running {| written := written r;
                           subscribers := subscribers r ++ [m] |}
      end
  end.

(** One turn of either loop. *)
Inductive event :=
| Packet (t : turn)
| Offer (recvOnlyOffer : SessionDescription) (peerErr : option string).

Definition step (which : example) (p : process) (e : event) : process :=
  match p with
  | Panicked _ _ => p
  | Running r =>
      match e with
      | Packet t => forwardTurn r t
      | Offer sd peerErr => subscriberTurn which r sd peerErr
      end
  end.

(** An interleaving of turns of the two loops. *)
Definition run (which : example) (p : process) (evs : list event) : process :=
  fold_left (step which) evs p.

End Programs.

(** A relay with one subscriber attached and one packet written, and
    answers of the tracks for single turns of the forwarding loop. *)
Definition packet1 : list Byte.byte := [Byte.x80; Byte.x60; Byte.x00; Byte.x01].
Definition packet2 : list Byte.byte := [Byte.x80; Byte.x60; Byte.x00; Byte.x02].

Definition attachedRelay : relay (pkg := pionPackage) :=
  {| written := [(packet1, None)];
     subscribers :=
       [snd (RegisterCodec emptyEngine (NewRTPVP8Codec 100 90000))] |}.

Definition deliveredTurn : turn :=
  {| readResult := inl packet2; writeResult := None |}.
Definition closedPipeTurn : turn :=
  {| readResult := inl packet2; writeResult := Some ErrClosedPipe |}.
Definition brokenWriteTurn : turn :=
  {| readResult := inl packet2; writeResult := Some (ErrOther "write: connection refused") |}.
Definition endOfStreamTurn : turn :=
  {| readResult := inr (ErrOther "EOF"); writeResult := None |}.

(** ** Notions used to state the properties *)

Section Notions.
Context {pkg : Package} {lib : sdp.Library}.

(** The payload type that a format declares, after [uint8]. *)
Definition declaredPayloadType (format : string) : option Z :=
  match strconv.Atoi format with
  | Some pt => Some (uint8 pt)
  | None => None
  end.

(** What the description binds to a declared format. *)
Definition bound (sdpsd : sdp.SessionDescription) (format : string) : option sdp.Codec :=
  match declaredPayloadType format with
  | Some payloadType => sdp.GetCodecForPayloadType sdpsd payloadType
  | None => None
  end.

(** A format resolves when it is an integer and the description binds a
    codec to its payload type. *)
Definition resolves (sdpsd : sdp.SessionDescription) (format : string) : Prop :=
  exists payloadCodec, bound sdpsd format = Some payloadCodec.

(** The format is bound to a codec of the given name. *)
Definition advertises (sdpsd : sdp.SessionDescription) (codecName format : string) : Prop :=
  exists payloadCodec,
    bound sdpsd format = Some payloadCodec /\ sdp.Name payloadCodec = codecName.

(** The payload types of the integer formats of a list, in order. *)
Definition declaredIn (formats : list string) : list Z :=
  flat_map (fun format => match declaredPayloadType format with
                          | Some payloadType => [payloadType]
                          | None => []
                          end) formats.

(** The payload types that a description declares, in declaration
    order. *)
Definition declaredPayloadTypes (sdpsd : sdp.SessionDescription) : list Z :=
  declaredIn (sdp.allFormats sdpsd).

(** The codec that a resolving format of a known name contributes to the
    registry; nothing for the other formats. *)
Definition contribution (sdpsd : sdp.SessionDescription) (format : string) : list RTPCodec :=
  match declaredPayloadType format, bound sdpsd format with
  | Some payloadType, Some payloadCodec =>
      match switchName payloadCodec payloadType with
      | Some codec => [codec]
      | None => []
      end
  | _, _ => []
  end.

(** The error that a format which does not resolve is answered with. *)
Definition defect (format : string) : error :=
  match strconv.Atoi format with
  | None => ErrFormatParse
  | Some pt => ErrNoCodecForPayloadType (uint8 pt)
  end.

End Notions.

(** A codec that some case of the switch built. *)
Definition built {pkg : Package} (c : RTPCodec) : Prop :=
  exists payloadCodec payloadType, switchName payloadCodec payloadType = Some c.

(** The names that [PopulateFromSDP] has a case for. *)
Definition knownName (name : string) : bool :=
  String.eqb name G722 || String.eqb name Opus || String.eqb name VP8
  || String.eqb name VP9 || String.eqb name H264.

(** The errors that say that a codec was looked for and not found. *)
Definition isCodecNotFound (err : error) : bool :=
  match err with
  | ErrNoCodecInDescription _ | ErrNoCodecsFound _ => true
  | _ => false
  end.

(** The payloader that goes with a codec name. *)
Definition payloaderOf (name : string) : option Payloader :=
  if String.eqb name G722 then Some G722Payloader
  else if String.eqb name Opus then Some OpusPayloader
  else if String.eqb name VP8 then Some VP8Payloader
  else if String.eqb name H264 then Some H264Payloader
  else None.

(** ** Notions for the lookups, the loops and the registry *)

(** [l'] is [l] with more appended. *)
Definition extends {A : Type} (l l' : list A) : Prop :=
  exists more, l' = l ++ more.

(** Folding of ASCII letters, to run [NewRTPCodecType] with. *)
Definition asciiLower (ch : ascii) : ascii :=
  let n := nat_of_ascii ch in
  if ((65 <=? n) && (n <=? 90))%nat then ascii_of_nat (n + 32) else ch.

Fixpoint asciiEqualFold (s t : string) : bool :=
  match s, t with
  | EmptyString, EmptyString => true
  | String a s', String b t' =>
      Ascii.eqb (asciiLower a) (asciiLower b) && asciiEqualFold s' t'
  | _, _ => false
  end.

Definition asciiFolding : strings.Folding :=
  {| strings.EqualFold := asciiEqualFold |}.

(** Two more offers to run the code on: one whose second format is not a
    number, after a format that resolves, and one whose format is outside
    the range of a payload type. *)
Definition lateDefectText := "m=video 9 UDP/TLS/RTP/SAVPF 96 abc 98".
Definition lateDefectParsed : sdp.SessionDescription :=
  {| sdp.MediaDescriptions :=
       [ videoSection ["96"; "abc"; "98"]
           [rtpmap 96 "VP8" 90000 "" "";
            rtpmap 98 "VP9" 90000 "" "profile-id=0"] ] |}.

Definition wideText := "m=video 9 UDP/TLS/RTP/SAVPF 352".
Definition wideParsed : sdp.SessionDescription :=
  {| sdp.MediaDescriptions :=
       [ videoSection ["352"] [rtpmap 96 "VP8" 90000 "" ""] ] |}.

Definition moreOffers : list (string * sdp.SessionDescription) :=
  offers ++ [ (lateDefectText, lateDefectParsed); (wideText, wideParsed) ].

Definition moreLibrary : sdp.Library := tableLibrary moreOffers.

Definition lateDefectOffer : SessionDescription := {| SDP := lateDefectText |}.
Definition wideOffer : SessionDescription := {| SDP := wideText |}.

Section LoopNotions.
Context {pkg : Package}.

(** A turn after which the forwarding loop goes on: the read succeeds
    and the write returns [nil] or [io.ErrClosedPipe]. *)
Definition benign (t : turn) : bool :=
  match readResult t with
  | inr _ => false
  | inl _ =>
      match writeResult t with
      | Some err => isErrClosedPipe err
      | None => true
      end
  end.

(** The [Write] call of a turn: none when the read fails. *)
Definition writeOf (t : turn) : list (list Byte.byte * option ioError) :=
  match readResult t with
  | inl packet => [(packet, writeResult t)]
  | inr _ => []
  end.

(** The value that a turn which is not benign panics with. *)
Definition fatalValue (t : turn) : option panicValue :=
  match readResult t with
  | inr readErr => Some (PanicIO readErr)
  | inl _ =>
      match writeResult t with
      | Some err => if isErrClosedPipe err then None else Some (PanicIO err)
      | None => None
      end
  end.

(** The relay of a process, running or not. *)
Definition relayOf (p : process) : relay :=
  match p with
  | Running r => r
  | Panicked r _ => r
  end.

Definition isRunning (p : process) : bool :=
  match p with
  | Running _ => true
  | Panicked _ _ => false
  end.

(** What [getCodecSDP] compares: name, clock rate and format parameters
    are equal, and the encoding parameters are empty or the decimal text of
    the channel count. *)
Definition agrees (codec : RTPCodec) (sdpCodec : sdp.Codec) : Prop :=
  Name codec = sdp.Name sdpCodec
  /\ ClockRate (Capability codec) = sdp.ClockRate sdpCodec
  /\ (sdp.EncodingParameters sdpCodec = ""
      \/ strconv.Itoa (Channels (Capability codec)) = sdp.EncodingParameters sdpCodec)
  /\ SDPFmtpLine (Capability codec) = sdp.Fmtp sdpCodec.

(** The channel count that each constructor gives, by codec name. *)
Definition channelsOf (name : string) : Z :=
  if String.eqb name Opus then 2 else 0.

(** The kind that each constructor gives, by codec name. *)
Definition kindOf (name : string) : RTPCodecType :=
  if String.eqb name G722 || String.eqb name Opus
  then RTPCodecTypeAudio else RTPCodecTypeVideo.

(** The codecs of [RegisterDefaultCodecs], in the order of its calls. *)
Definition defaultCodecs : list RTPCodec :=
  [ NewRTPOpusCodec DefaultPayloadTypeOpus 48000;
    NewRTPG722Codec DefaultPayloadTypeG722 8000;
    NewRTPVP8Codec DefaultPayloadTypeVP8 90000;
    NewRTPH264Codec DefaultPayloadTypeH264 90000;
    NewRTPVP9Codec DefaultPayloadTypeVP9 90000 ].

(** The engine that the subscriber loop builds for a payload type. *)
Definition vp8Engine (payloadType : Z) : MediaEngine :=
  {| codecs := [NewRTPVP8Codec payloadType 90000] |}.

End LoopNotions.

(** * Properties *)

Unset Implicit Arguments.

(** ** Lookups by kind and by name *)

Section Lookups.
Context {pkg : Package}.

Lemma fold_append_filter (A : Type) (p : A -> bool) (l acc : list A) :
  fold_left (fun acc x => if p x then acc ++ [x] else acc) l acc = acc ++ filter p l.
Proof.
  revert acc; induction l as [|x l IH]; intros acc; simpl.
  - now rewrite app_nil_r.
  - rewrite IH. destruct (p x); simpl; [now rewrite <- app_assoc|reflexivity].
Qed.

Lemma GetCodecsByKind_filter (m : MediaEngine) (kind : RTPCodecType) :
  GetCodecsByKind m kind = filter (fun c => Type_ c =? kind) (codecs m).
Proof. unfold GetCodecsByKind. now rewrite fold_append_filter. Qed.

Lemma GetCodecsByName_filter (m : MediaEngine) (codecName : string) :
  GetCodecsByName m codecName = filter (fun c => String.eqb (Name c) codecName) (codecs m).
Proof. unfold GetCodecsByName. now rewrite fold_append_filter. Qed.

Lemma registerAll_codecs (m : MediaEngine) (cs : list RTPCodec) :
  codecs (registerAll m cs) = codecs m ++ cs.
Proof.
  revert m; induction cs as [|c cs IH]; intros m; simpl.
  - now rewrite app_nil_r.
  - unfold registerAll in *; simpl. rewrite IH; simpl. now rewrite <- app_assoc.
Qed.

(** C9. In the registry obtained by registering the codecs [cs] one after
    the other on an empty engine, [GetCodecsByKind] and [GetCodecsByName]
    return exactly the codecs of [cs] that have the kind (the name), in the
    order of [cs]. *)
Theorem C9_lookup_order (cs : list RTPCodec) :
  let m := registerAll emptyEngine cs in
  codecs m = cs
  /\ (forall kind, GetCodecsByKind m kind = filter (fun c => Type_ c =? kind) cs)
  /\ (forall codecName,
        GetCodecsByName m codecName = filter (fun c => String.eqb (Name c) codecName) cs).
Proof.
  cbv zeta.
  assert (E : codecs (registerAll emptyEngine cs) = cs)
    by (rewrite registerAll_codecs; reflexivity).
  repeat split.
  - exact E.
  - intros kind. now rewrite GetCodecsByKind_filter, E.
  - intros codecName. now rewrite GetCodecsByName_filter, E.
Qed.

End Lookups.

(** ** What [PopulateFromSDP] computes *)

Section Populate.
Context {pkg : Package} {lib : sdp.Library}.
Variable sdpsd : sdp.SessionDescription.

Lemma resolves_dec (format : string) :
  {resolves sdpsd format} + {bound sdpsd format = None}.
Proof.
  unfold resolves. destruct (bound sdpsd format) as [pc|].
  - left; now exists pc.
  - now right.
Qed.

Lemma populateFormats_app (m : MediaEngine) (a b : list string) :
  populateFormats sdpsd m (a ++ b) =
  match populateFormats sdpsd m a with
  | (m', Some err) => (m', Some err)
  | (m', None) => populateFormats sdpsd m' b
  end.
Proof.
  revert m; induction a as [|f a IH]; intros m; simpl; [reflexivity|].
  destruct (strconv.Atoi f) as [pt|]; [|reflexivity].
  destruct (sdp.GetCodecForPayloadType sdpsd (uint8 pt)) as [pc|]; [|reflexivity].
  destruct (switchName pc (uint8 pt)); apply IH.
Qed.

Lemma populateMedia_flat (m : MediaEngine) (mds : list sdp.MediaDescription) :
  populateMedia sdpsd m mds =
  populateFormats sdpsd m (flat_map (fun md => sdp.Formats (sdp.MediaName_ md)) mds).
Proof.
  revert m; induction mds as [|md mds IH]; intros m; simpl; [reflexivity|].
  rewrite populateFormats_app.
  destruct (populateFormats sdpsd m (sdp.Formats (sdp.MediaName_ md))) as [m' [err|]];
    [reflexivity|apply IH].
Qed.

(** All formats resolve: no error, and the registry grows by the
    contributions of the formats, in order. *)
Lemma populateFormats_ok (m : MediaEngine) (formats : list string) :
  Forall (resolves sdpsd) formats ->
  populateFormats sdpsd m formats =
  ({| codecs := codecs m ++ flat_map (contribution sdpsd) formats |}, None).
Proof.
  revert m; induction formats as [|f fs IH]; intros m Hall; simpl.
  - rewrite app_nil_r. now destruct m.
  - inversion Hall as [|? ? [pc Hf] Hfs]; subst.
    unfold contribution. unfold bound, declaredPayloadType in *.
    destruct (strconv.Atoi f) as [pt|]; [|discriminate].
    rewrite Hf. destruct (switchName pc (uint8 pt)) as [c|].
    + rewrite (IH _ Hfs). simpl. now rewrite <- app_assoc.
    + now rewrite (IH _ Hfs).
Qed.

(** A format that does not resolve, after formats that do: its error,
    and the registry keeps what the earlier formats contributed. *)
Lemma populateFormats_defect (m : MediaEngine) (pre post : list string) (f : string) :
  Forall (resolves sdpsd) pre ->
  bound sdpsd f = None ->
  populateFormats sdpsd m (pre ++ f :: post) =
  ({| codecs := codecs m ++ flat_map (contribution sdpsd) pre |}, Some (defect f)).
Proof.
  intros Hpre Hf. rewrite populateFormats_app, (populateFormats_ok _ _ Hpre).
  simpl. unfold bound, declaredPayloadType, defect in *.
  destruct (strconv.Atoi f) as [pt|]; [|reflexivity].
  now rewrite Hf.
Qed.

(** Every list of formats is of one of the two shapes. *)
Lemma formats_shape (formats : list string) :
  Forall (resolves sdpsd) formats
  \/ exists pre f post,
       formats = pre ++ f :: post /\ Forall (resolves sdpsd) pre /\ bound sdpsd f = None.
Proof.
  induction formats as [|f fs [IH|(pre & g & post & E & Hpre & Hg)]].
  - left; constructor.
  - destruct (resolves_dec f) as [Hf|Hf].
    + left; now constructor.
    + right. exists [], f, fs. repeat split; [constructor|assumption].
  - destruct (resolves_dec f) as [Hf|Hf].
    + right. exists (f :: pre), g, post. subst. repeat split; [now constructor|assumption].
    + right. exists [], f, fs. repeat split; [constructor|assumption].
Qed.

(** The first format that does not resolve is unique. *)
Lemma first_defect_unique (pre pre' post post' : list string) (f f' : string) :
  pre ++ f :: post = pre' ++ f' :: post' ->
  Forall (resolves sdpsd) pre -> bound sdpsd f = None ->
  Forall (resolves sdpsd) pre' -> bound sdpsd f' = None ->
  pre = pre' /\ f = f'.
Proof.
  revert pre'; induction pre as [|a pre IH]; intros [|a' pre'] E Hp Hf Hp' Hf';
    simpl in E; inversion E; subst.
  - now split.
  - inversion Hp' as [|? ? [pc Hpc] _]; subst. congruence.
  - inversion Hp as [|? ? [pc Hpc] _]; subst. congruence.
  - inversion Hp; inversion Hp'; subst.
    destruct (IH pre') as [-> ->]; auto.
Qed.

End Populate.

(** ** The codecs that the switch builds *)

Section Switch.
Context {pkg : Package}.

Ltac by_name pc :=
  unfold switchName, knownName;
  destruct (String.eqb (sdp.Name pc) G722) eqn:E1;
  [|destruct (String.eqb (sdp.Name pc) Opus) eqn:E2;
    [|destruct (String.eqb (sdp.Name pc) VP8) eqn:E3;
      [|destruct (String.eqb (sdp.Name pc) VP9) eqn:E4;
        [|destruct (String.eqb (sdp.Name pc) H264) eqn:E5]]]];
  repeat match goal with
         | E : String.eqb _ _ = true |- _ => apply String.eqb_eq in E
         end.

Lemma switchName_known (pc : sdp.Codec) (pt : Z) :
  switchName pc pt = None <-> knownName (sdp.Name pc) = false.
Proof. by_name pc; simpl; split; intros; congruence. Qed.

(** The fields that every case of the switch fills alike. *)
Lemma switchName_fields (pc : sdp.Codec) (pt : Z) (c : RTPCodec) :
  switchName pc pt = Some c ->
  Name c = sdp.Name pc
  /\ PayloadType c = pt
  /\ ClockRate (Capability c) = sdp.ClockRate pc
  /\ Payloader_ c = payloaderOf (Name c)
  /\ Type_ c = (if String.eqb (Name c) G722 || String.eqb (Name c) Opus
                then RTPCodecTypeAudio else RTPCodecTypeVideo).
Proof.
  by_name pc; intros E; inversion E; subst; clear E; simpl;
    repeat match goal with E : sdp.Name pc = _ |- _ => rewrite E; clear E end;
    repeat split; reflexivity.
Qed.

(** The format parameters: those of the description in the three video
    cases, those of the constructor in the two audio cases. *)
Lemma switchName_fmtp (pc : sdp.Codec) (pt : Z) (c : RTPCodec) :
  switchName pc pt = Some c ->
  SDPFmtpLine (Capability c) =
    if String.eqb (Name c) G722 then ""
    else if String.eqb (Name c) Opus then "minptime=10;useinbandfec=1"
    else sdp.Fmtp pc.
Proof.
  by_name pc; intros E; inversion E; subst; clear E; simpl; reflexivity.
Qed.

(** Only the VP9 case attaches no payloader. *)
Lemma switchName_payloader_nil (pc : sdp.Codec) (pt : Z) (c : RTPCodec) :
  switchName pc pt = Some c -> (Payloader_ c = None <-> Name c = VP9).
Proof.
  by_name pc; intros E; inversion E; subst; clear E; simpl;
    split; intros E; try discriminate E; reflexivity.
Qed.

End Switch.

Section Resolved.
Context {pkg : Package} {lib : sdp.Library}.

Lemma PopulateFromSDP_parsed (m : MediaEngine) (sd : SessionDescription)
    (sdpsd : sdp.SessionDescription) :
  sdp.Unmarshal (SDP sd) = inl sdpsd ->
  PopulateFromSDP m sd = populateFormats sdpsd m (sdp.allFormats sdpsd).
Proof.
  intros E. unfold PopulateFromSDP. rewrite E. apply populateMedia_flat.
Qed.

Lemma contribution_built (sdpsd : sdp.SessionDescription) (f : string) (c : RTPCodec) :
  In c (contribution sdpsd f) ->
  exists pt pc, declaredPayloadType f = Some pt /\ bound sdpsd f = Some pc
                /\ switchName pc pt = Some c.
Proof.
  unfold contribution.
  destruct (declaredPayloadType f) as [pt|]; [|intros []].
  destruct (bound sdpsd f) as [pc|]; [|intros []].
  destruct (switchName pc pt) as [c'|] eqn:E; [|intros []].
  intros [->|[]]. now exists pt, pc.
Qed.

(** Whatever the outcome, the registry holds the contributions of an
    initial segment of the formats. *)
Lemma populateFormats_prefix (sdpsd : sdp.SessionDescription) (m : MediaEngine)
    (formats : list string) :
  exists pre post,
    formats = pre ++ post
    /\ codecs (fst (populateFormats sdpsd m formats)) =
       codecs m ++ flat_map (contribution sdpsd) pre.
Proof.
  destruct (formats_shape sdpsd formats) as [Hall|(pre & f & post & -> & Hpre & Hf)].
  - exists formats, []. rewrite app_nil_r, (populateFormats_ok _ _ _ Hall). now split.
  - exists pre, (f :: post). rewrite populateFormats_defect by assumption. now split.
Qed.

Lemma PopulateFromSDP_built (sd : SessionDescription) (c : RTPCodec) :
  In c (codecs (fst (PopulateFromSDP emptyEngine sd))) -> built c.
Proof.
  unfold PopulateFromSDP.
  destruct (sdp.Unmarshal (SDP sd)) as [sdpsd|err]; [|intros []].
  rewrite populateMedia_flat.
  destruct (populateFormats_prefix sdpsd emptyEngine
              (flat_map (fun md => sdp.Formats (sdp.MediaName_ md))
                        (sdp.MediaDescriptions sdpsd)))
    as (pre & post & _ & ->).
  simpl. rewrite in_flat_map. intros (f & _ & Hc).
  destruct (contribution_built _ _ _ Hc) as (pt & pc & _ & _ & E).
  now exists pc, pt.
Qed.

Lemma built_VP8_video (c : RTPCodec) :
  built c -> Name c = VP8 -> Type_ c = RTPCodecTypeVideo.
Proof.
  intros (pc & pt & E) HN.
  destruct (switchName_fields _ _ _ E) as (_ & _ & _ & _ & HT).
  rewrite HT, HN. reflexivity.
Qed.

(** [firstNamed] against the filter by name. *)
Lemma firstNamed_filter (cs : list RTPCodec) (codecName : string) :
  firstNamed cs codecName =
  match filter (fun c => String.eqb (Name c) codecName) cs with
  | [] => inr (ErrNoCodecsFound codecName)
  | c :: _ => inl (PayloadType c)
  end.
Proof.
  induction cs as [|c cs IH]; simpl; [reflexivity|].
  destruct (String.eqb (Name c) codecName); [reflexivity|exact IH].
Qed.

Lemma filter_kind_then_name (cs : list RTPCodec) (codecName : string) (kind : RTPCodecType) :
  (forall c, In c cs -> Name c = codecName -> Type_ c = kind) ->
  filter (fun c => String.eqb (Name c) codecName) (filter (fun c => Type_ c =? kind) cs)
  = filter (fun c => String.eqb (Name c) codecName) cs.
Proof.
  induction cs as [|c cs IH]; intros Hk; simpl; [reflexivity|].
  assert (IH' := IH (fun c' Hc' => Hk c' (or_intror Hc'))).
  destruct (String.eqb (Name c) codecName) eqn:EN.
  - apply String.eqb_eq in EN. rewrite (Hk c (or_introl eq_refl) EN), Z.eqb_refl.
    simpl. apply String.eqb_eq in EN. rewrite EN. now rewrite IH'.
  - destruct (Type_ c =? kind); simpl; [rewrite EN|]; exact IH'.
Qed.

(** [firstCodecOfType] on a registry in which the name fixes the kind:
    the first codec of that name, an error when there is none. *)
Lemma firstCodecOfType_first (m : MediaEngine) (codecName : string) (kind : RTPCodecType) :
  (forall c, In c (codecs m) -> Name c = codecName -> Type_ c = kind) ->
  match GetCodecsByName m codecName with
  | [] => exists what, firstCodecOfType m codecName kind = inr (ErrNoCodecsFound what)
  | c :: _ => firstCodecOfType m codecName kind = inl (PayloadType c)
  end.
Proof.
  intros Hk. unfold firstCodecOfType.
  rewrite GetCodecsByName_filter, GetCodecsByKind_filter.
  rewrite <- (filter_kind_then_name _ _ _ Hk).
  destruct (filter (fun c => Type_ c =? kind) (codecs m)) as [|c0 cs0] eqn:EK.
  - simpl. now eexists.
  - rewrite firstNamed_filter.
    destruct (filter _ (c0 :: cs0)); [now eexists|reflexivity].
Qed.

End Resolved.

(** ** Selecting VP8 *)

Section Selection.
Context {pkg : Package} {lib : sdp.Library}.

Lemma filter_none (A : Type) (p : A -> bool) (l : list A) :
  (forall x, In x l -> p x = false) -> filter p l = [].
Proof.
  induction l as [|x l IH]; intros Hp; simpl; [reflexivity|].
  rewrite (Hp x (or_introl eq_refl)). apply IH. intros y Hy. apply Hp. now right.
Qed.

(** A payload type in the range of [uint8] is declared as it is
    written. *)
Lemma declaredPayloadType_in_range (format : string) (pt : Z) :
  strconv.Atoi format = Some pt -> 0 <= pt < 256 ->
  declaredPayloadType format = Some pt.
Proof.
  intros E Hr. unfold declaredPayloadType, uint8. rewrite E.
  now rewrite Z.mod_small.
Qed.

(** The registry of a description in which every format resolves. *)
Lemma PopulateFromSDP_ok (sd : SessionDescription) (sdpsd : sdp.SessionDescription) :
  sdp.Unmarshal (SDP sd) = inl sdpsd ->
  Forall (resolves sdpsd) (sdp.allFormats sdpsd) ->
  PopulateFromSDP emptyEngine sd =
  ({| codecs := flat_map (contribution sdpsd) (sdp.allFormats sdpsd) |}, None).
Proof.
  intros E Hall. rewrite (PopulateFromSDP_parsed _ _ _ E).
  now rewrite (populateFormats_ok _ _ _ Hall).
Qed.

(** The name of a contributed codec is the name that the description
    binds to the format. *)
Lemma contribution_name (sdpsd : sdp.SessionDescription) (f : string) (c : RTPCodec) :
  In c (contribution sdpsd f) -> advertises sdpsd (Name c) f.
Proof.
  intros Hc. destruct (contribution_built _ _ _ Hc) as (pt & pc & _ & Hb & E).
  destruct (switchName_fields _ _ _ E) as (HN & _).
  exists pc. now split.
Qed.

Lemma contribution_VP8 (sdpsd : sdp.SessionDescription) (f : string) (P : Z) :
  advertises sdpsd VP8 f -> declaredPayloadType f = Some P ->
  exists c, contribution sdpsd f = [c] /\ Name c = VP8 /\ PayloadType c = P.
Proof.
  intros (pc & Hb & HN) HP. unfold contribution. rewrite HP, Hb.
  destruct (switchName pc P) as [c|] eqn:E.
  - destruct (switchName_fields _ _ _ E) as (HN' & HPT & _).
    exists c. repeat split; congruence.
  - apply switchName_known in E. rewrite HN in E. discriminate.
Qed.

Lemma preferredCodec_first (sd : SessionDescription) (m : MediaEngine) (codecName : string) :
  PopulateFromSDP emptyEngine sd = (m, None) ->
  preferredCodec codecName sd =
  match GetCodecsByName m codecName with
  | [] => inr (ErrNoCodecInDescription codecName)
  | codec0 :: _ => inl codec0
  end.
Proof. intros E. unfold preferredCodec. now rewrite E. Qed.

Lemma resolved_VP8_video (sd : SessionDescription) (m : MediaEngine) :
  PopulateFromSDP emptyEngine sd = (m, None) ->
  forall c, In c (codecs m) -> Name c = VP8 -> Type_ c = RTPCodecTypeVideo.
Proof.
  intros E c Hc. apply built_VP8_video, (PopulateFromSDP_built sd).
  now rewrite E.
Qed.

(** C1. In a description that parses and whose formats all resolve, let
    [f] be the first format, in the order of the media sections and of
    their format lists, that the description binds to VP8, and [P] the
    payload type that [f] declares.  Then [preferredCodec] returns a codec
    with payload type [P], and [firstCodecOfType] on the populated engine
    returns [P]. *)
Theorem C1_first_advertised_VP8 (sd : SessionDescription)
    (sdpsd : sdp.SessionDescription) (pre post : list string) (f : string) (P : Z) :
  sdp.Unmarshal (SDP sd) = inl sdpsd ->
  Forall (resolves sdpsd) (sdp.allFormats sdpsd) ->
  sdp.allFormats sdpsd = pre ++ f :: post ->
  (forall g, In g pre -> ~ advertises sdpsd VP8 g) ->
  advertises sdpsd VP8 f ->
  declaredPayloadType f = Some P ->
  (exists codec, preferredCodec VP8 sd = inl codec /\ PayloadType codec = P)
  /\ (exists m, PopulateFromSDP emptyEngine sd = (m, None)
                /\ firstCodecOfType m VP8 RTPCodecTypeVideo = inl P).
Proof.
  intros EU Hall Esplit Hpre Hf HP.
  pose proof (PopulateFromSDP_ok _ _ EU Hall) as Epop.
  destruct (contribution_VP8 _ _ _ Hf HP) as (c & Ec & HN & HPT).
  set (m := {| codecs := flat_map (contribution sdpsd) (sdp.allFormats sdpsd) |}) in *.
  assert (EN : exists tl, GetCodecsByName m VP8 = c :: tl).
  { rewrite GetCodecsByName_filter. unfold m; simpl.
    rewrite Esplit, flat_map_app, filter_app. simpl. rewrite Ec.
    rewrite filter_none.
    - simpl. rewrite HN. simpl. now eexists.
    - intros x Hx. apply in_flat_map in Hx. destruct Hx as (g & Hg & Hx).
      destruct (String.eqb (Name x) VP8) eqn:EX; [|reflexivity].
      apply String.eqb_eq in EX. exfalso. apply (Hpre g Hg).
      rewrite <- EX. now apply contribution_name. }
  destruct EN as (tl & EN). split.
  - exists c. split; [|exact HPT].
    rewrite (preferredCodec_first _ _ _ Epop), EN. reflexivity.
  - exists m. split; [exact Epop|].
    pose proof (firstCodecOfType_first m VP8 RTPCodecTypeVideo
                  (resolved_VP8_video _ _ Epop)) as HF.
    rewrite EN in HF. now rewrite HF, HPT.
Qed.

(** C8. When the registry resolved from a description holds no codec
    named VP8, [preferredCodec] fails with its not-found error, and so does
    [firstCodecOfType] on that registry; neither returns a payload type. *)
Theorem C8_no_VP8_not_found (sd : SessionDescription) (m : MediaEngine) :
  PopulateFromSDP emptyEngine sd = (m, None) ->
  (forall c, In c (codecs m) -> Name c <> VP8) ->
  preferredCodec VP8 sd = inr (ErrNoCodecInDescription VP8)
  /\ (exists err, firstCodecOfType m VP8 RTPCodecTypeVideo = inr err
                  /\ isCodecNotFound err = true).
Proof.
  intros Epop Hno.
  assert (EN : GetCodecsByName m VP8 = []).
  { rewrite GetCodecsByName_filter. apply filter_none. intros c Hc.
    destruct (String.eqb (Name c) VP8) eqn:EX; [|reflexivity].
    apply String.eqb_eq in EX. now destruct (Hno c Hc). }
  split.
  - now rewrite (preferredCodec_first _ _ _ Epop), EN.
  - pose proof (firstCodecOfType_first m VP8 RTPCodecTypeVideo
                  (resolved_VP8_video _ _ Epop)) as HF.
    rewrite EN in HF. destruct HF as (what & HF).
    exists (ErrNoCodecsFound what). now split.
Qed.

(** C10. On a registry that [PopulateFromSDP] produced for a description,
    [preferredCodec] for VP8 and [firstCodecOfType] for VP8 of kind video
    agree: both return the same payload type, or both fail with a not-found
    error. *)
Theorem C10_selection_equivalent (sd : SessionDescription) (m : MediaEngine) :
  PopulateFromSDP emptyEngine sd = (m, None) ->
  match preferredCodec VP8 sd, firstCodecOfType m VP8 RTPCodecTypeVideo with
  | inl codec, inl payloadType => PayloadType codec = payloadType
  | inr err1, inr err2 => isCodecNotFound err1 = true /\ isCodecNotFound err2 = true
  | _, _ => False
  end.
Proof.
  intros Epop.
  pose proof (firstCodecOfType_first m VP8 RTPCodecTypeVideo
                (resolved_VP8_video _ _ Epop)) as HF.
  rewrite (preferredCodec_first _ _ _ Epop).
  destruct (GetCodecsByName m VP8) as [|c tl].
  - destruct HF as (what & ->). now split.
  - now rewrite HF.
Qed.

(** The two example programs negotiate alike on every offer, also on one
    that [PopulateFromSDP] rejects. *)
Lemma negotiateVP8_examples_agree (sd : SessionDescription) :
  match negotiateVP8 PreferredCodecExample sd, negotiateVP8 FirstCodecOfTypeExample sd with
  | inl p1, inl p2 => p1 = p2
  | inr _, inr _ => True
  | _, _ => False
  end.
Proof.
  unfold negotiateVP8.
  destruct (PopulateFromSDP emptyEngine sd) as [m [err|]] eqn:Epop.
  - unfold preferredCodec. now rewrite Epop.
  - pose proof (firstCodecOfType_first m VP8 RTPCodecTypeVideo
                  (resolved_VP8_video _ _ Epop)) as HF.
    rewrite (preferredCodec_first _ _ _ Epop).
    destruct (GetCodecsByName m VP8) as [|c tl].
    + now destruct HF as (what & ->).
    + now rewrite HF.
Qed.

End Selection.

(** ** Errors of [PopulateFromSDP] *)

Section Errors.
Context {pkg : Package} {lib : sdp.Library}.

Lemma not_integer_unbound (sdpsd : sdp.SessionDescription) (f : string) :
  strconv.Atoi f = None -> bound sdpsd f = None.
Proof. intros E. unfold bound, declaredPayloadType. now rewrite E. Qed.

Lemma no_codec_unbound (sdpsd : sdp.SessionDescription) (f : string) (payloadType : Z) :
  declaredPayloadType f = Some payloadType ->
  sdp.GetCodecForPayloadType sdpsd payloadType = None ->
  bound sdpsd f = None.
Proof. intros E1 E2. unfold bound. now rewrite E1. Qed.

Lemma resolves_bound (sdpsd : sdp.SessionDescription) (f : string) :
  resolves sdpsd f -> bound sdpsd f = None -> False.
Proof. intros [pc E] E'. congruence. Qed.

Lemma all_resolve_no_defect (sdpsd : sdp.SessionDescription) (pre post : list string) (f : string) :
  Forall (resolves sdpsd) (pre ++ f :: post) -> bound sdpsd f = None -> False.
Proof.
  intros Hall Hf. rewrite Forall_forall in Hall.
  apply (resolves_bound sdpsd f); [|exact Hf].
  apply Hall, in_or_app. right. now left.
Qed.

(** The returned error, by the shape of the format list. *)
Lemma PopulateFromSDP_error (m : MediaEngine) (sd : SessionDescription)
    (sdpsd : sdp.SessionDescription) :
  sdp.Unmarshal (SDP sd) = inl sdpsd ->
  (Forall (resolves sdpsd) (sdp.allFormats sdpsd) /\ snd (PopulateFromSDP m sd) = None)
  \/ exists pre f post,
       sdp.allFormats sdpsd = pre ++ f :: post /\ Forall (resolves sdpsd) pre
       /\ bound sdpsd f = None /\ snd (PopulateFromSDP m sd) = Some (defect f).
Proof.
  intros EU. rewrite (PopulateFromSDP_parsed _ _ _ EU).
  destruct (formats_shape sdpsd (sdp.allFormats sdpsd))
    as [Hall|(pre & f & post & E & Hpre & Hf)].
  - left. split; [exact Hall|]. now rewrite (populateFormats_ok _ _ _ Hall).
  - right. exists pre, f, post. rewrite E at 2.
    rewrite populateFormats_defect by assumption. now repeat split.
Qed.

(** C4, amended. For a description that parses, [PopulateFromSDP] returns
    the format-parse error exactly when the first format (in the order of
    the media sections and their format lists) that is not an integer with
    a codec bound to its payload type is not an integer at all, and the
    no-codec error for payload type [p] exactly when that first format is
    an integer declaring [p] to which the description binds no codec.
    In both cases [preferredCodec] returns that error and no codec. *)
Theorem C4_first_defect_decides (m : MediaEngine) (sd : SessionDescription)
    (sdpsd : sdp.SessionDescription) :
  sdp.Unmarshal (SDP sd) = inl sdpsd ->
  (snd (PopulateFromSDP m sd) = Some ErrFormatParse <->
     exists pre f post,
       sdp.allFormats sdpsd = pre ++ f :: post /\ Forall (resolves sdpsd) pre
       /\ strconv.Atoi f = None)
  /\ (forall payloadType,
        snd (PopulateFromSDP m sd) = Some (ErrNoCodecForPayloadType payloadType) <->
        exists pre f post,
          sdp.allFormats sdpsd = pre ++ f :: post /\ Forall (resolves sdpsd) pre
          /\ declaredPayloadType f = Some payloadType
          /\ sdp.GetCodecForPayloadType sdpsd payloadType = None)
  /\ (forall err codecName,
        snd (PopulateFromSDP emptyEngine sd) = Some err ->
        preferredCodec codecName sd = inr err).
Proof.
  intros EU. split; [|split].
  - destruct (PopulateFromSDP_error m sd sdpsd EU)
      as [[Hall ->]|(pre & f & post & E & Hpre & Hf & ->)]; split.
    + discriminate.
    + intros (pre & f & post & E & _ & Hf). exfalso. rewrite E in Hall.
      eapply all_resolve_no_defect; [exact Hall|]. now apply not_integer_unbound.
    + intros Ed. exists pre, f, post. repeat split; try assumption.
      unfold defect in Ed. now destruct (strconv.Atoi f).
    + intros (pre' & f' & post' & E' & Hpre' & Hf').
      rewrite E in E'.
      destruct (first_defect_unique sdpsd _ _ _ _ _ _ E' Hpre Hf Hpre'
                  (not_integer_unbound sdpsd f' Hf')) as [_ <-].
      unfold defect. now rewrite Hf'.
  - intros p. destruct (PopulateFromSDP_error m sd sdpsd EU)
      as [[Hall ->]|(pre & f & post & E & Hpre & Hf & ->)]; split.
    + discriminate.
    + intros (pre & f & post & E & _ & Hd & Hc). exfalso. rewrite E in Hall.
      eapply all_resolve_no_defect; [exact Hall|]. eapply no_codec_unbound; eassumption.
    + intros Ed. exists pre, f, post. unfold defect in Ed.
      unfold bound, declaredPayloadType in *.
      destruct (strconv.Atoi f) as [pt|]; [|discriminate].
      inversion Ed; subst. now repeat split.
    + intros (pre' & f' & post' & E' & Hpre' & Hd' & Hc').
      rewrite E in E'.
      destruct (first_defect_unique sdpsd _ _ _ _ _ _ E' Hpre Hf Hpre'
                  (no_codec_unbound sdpsd f' p Hd' Hc')) as [_ <-].
      unfold defect. unfold declaredPayloadType in Hd'.
      destruct (strconv.Atoi f) as [pt|]; [|discriminate]. congruence.
  - intros err codecName Eerr. unfold preferredCodec.
    destruct (PopulateFromSDP emptyEngine sd) as [m' [e|]]; simpl in Eerr; congruence.
Qed.

End Errors.

(** ** Payload types of a registry *)

Section PayloadTypes.
Context {pkg : Package} {lib : sdp.Library}.

Lemma contribution_payload_types (sdpsd : sdp.SessionDescription) (f : string) :
  map PayloadType (contribution sdpsd f) = []
  \/ exists payloadType, declaredPayloadType f = Some payloadType
                         /\ map PayloadType (contribution sdpsd f) = [payloadType].
Proof.
  unfold contribution.
  destruct (declaredPayloadType f) as [pt|]; [|now left].
  destruct (bound sdpsd f) as [pc|]; [|now left].
  destruct (switchName pc pt) as [c|] eqn:E; [|now left].
  right. exists pt. split; [reflexivity|]. simpl.
  destruct (switchName_fields _ _ _ E) as (_ & -> & _). reflexivity.
Qed.

Lemma registered_declared (sdpsd : sdp.SessionDescription) (formats : list string) (p : Z) :
  In p (map PayloadType (flat_map (contribution sdpsd) formats)) -> In p (declaredIn formats).
Proof.
  induction formats as [|f fs IH]; simpl; [trivial|].
  rewrite map_app, !in_app_iff. intros [Hp|Hp]; [left|right; auto].
  destruct (contribution_payload_types sdpsd f) as [E|(pt & Ed & E)];
    rewrite E in Hp; [destruct Hp|]. now rewrite Ed.
Qed.

Lemma registered_NoDup (sdpsd : sdp.SessionDescription) (formats : list string) :
  NoDup (declaredIn formats) ->
  NoDup (map PayloadType (flat_map (contribution sdpsd) formats)).
Proof.
  induction formats as [|f fs IH]; simpl; intros Hnd; [constructor|].
  rewrite map_app.
  destruct (contribution_payload_types sdpsd f) as [E|(pt & Ed & E)]; rewrite E; simpl.
  - apply IH. now apply NoDup_app_remove_l in Hnd.
  - rewrite Ed in Hnd. simpl in Hnd. inversion Hnd as [|? ? Hnotin Hnd']; subst.
    constructor; [|now apply IH].
    intros Hin. apply Hnotin. now apply (registered_declared sdpsd).
Qed.

(** C5, amended. Registering codecs with pairwise distinct payload types
    on an empty engine gives a registry with pairwise distinct payload
    types; so does [PopulateFromSDP] on a description whose formats declare
    pairwise distinct payload types. *)
Theorem C5_unique_when_declared_once :
  (forall cs, NoDup (map PayloadType cs) ->
              NoDup (map PayloadType (codecs (registerAll emptyEngine cs))))
  /\ (forall sd sdpsd m,
        sdp.Unmarshal (SDP sd) = inl sdpsd ->
        PopulateFromSDP emptyEngine sd = (m, None) ->
        NoDup (declaredPayloadTypes sdpsd) ->
        NoDup (map PayloadType (codecs m))).
Proof.
  split.
  - intros cs Hnd. now rewrite registerAll_codecs.
  - intros sd sdpsd m EU Epop Hnd.
    destruct (PopulateFromSDP_error emptyEngine sd sdpsd EU)
      as [[Hall _]|(pre & f & post & _ & _ & _ & Eerr)].
    + rewrite (PopulateFromSDP_ok _ _ EU Hall) in Epop. inversion Epop; subst; simpl.
      now apply registered_NoDup.
    + rewrite Epop in Eerr. discriminate.
Qed.

End PayloadTypes.

(** ** Payloaders *)

Section Payloaders.
Context {pkg : Package}.

(** C6, amended. Two codecs that the switch of [PopulateFromSDP] built
    with the same name and kind carry the same payloader, whatever their
    payload types: the payloader is the one that goes with the name.  It
    is [nil] exactly for VP9 and present for G722, opus, VP8 and H264. *)
Theorem C6_payloader_by_name (c1 c2 : RTPCodec) :
  built c1 -> built c2 ->
  Name c1 = Name c2 -> Type_ c1 = Type_ c2 ->
  Payloader_ c1 = Payloader_ c2
  /\ Payloader_ c1 = payloaderOf (Name c1)
  /\ (Payloader_ c1 = None <-> Name c1 = VP9).
Proof.
  intros (pc1 & pt1 & E1) (pc2 & pt2 & E2) HN _.
  destruct (switchName_fields _ _ _ E1) as (_ & _ & _ & HP1 & _).
  destruct (switchName_fields _ _ _ E2) as (_ & _ & _ & HP2 & _).
  repeat split.
  - now rewrite HP1, HP2, HN.
  - exact HP1.
  - now apply (switchName_payloader_nil _ _ _ E1).
  - now apply (switchName_payloader_nil _ _ _ E1).
Qed.

End Payloaders.

(** ** The registry of an accepted description *)

Section Accepted.
Context {pkg : Package} {lib : sdp.Library}.

(** What an accepted description leaves in the registry: for each format
    in order, nothing when the bound name is not a known one, otherwise one
    codec with the declared payload type, the bound name and the bound
    clock rate; its format parameters are the bound ones for VP8, VP9 and
    H264 and the constructor's for G722 and opus. *)
Lemma PopulateFromSDP_registry (sd : SessionDescription) (sdpsd : sdp.SessionDescription)
    (m : MediaEngine) :
  sdp.Unmarshal (SDP sd) = inl sdpsd ->
  PopulateFromSDP emptyEngine sd = (m, None) ->
  codecs m = flat_map (contribution sdpsd) (sdp.allFormats sdpsd)
  /\ forall f, In f (sdp.allFormats sdpsd) ->
       exists payloadType payloadCodec,
         declaredPayloadType f = Some payloadType
         /\ sdp.GetCodecForPayloadType sdpsd payloadType = Some payloadCodec
         /\ (knownName (sdp.Name payloadCodec) = false -> contribution sdpsd f = [])
         /\ (knownName (sdp.Name payloadCodec) = true ->
             exists c, contribution sdpsd f = [c]
                       /\ PayloadType c = payloadType
                       /\ Name c = sdp.Name payloadCodec
                       /\ ClockRate (Capability c) = sdp.ClockRate payloadCodec
                       /\ SDPFmtpLine (Capability c) =
                            if String.eqb (Name c) G722 then ""
                            else if String.eqb (Name c) Opus then "minptime=10;useinbandfec=1"
                            else sdp.Fmtp payloadCodec).
Proof.
  intros EU Epop.
  destruct (PopulateFromSDP_error emptyEngine sd sdpsd EU)
    as [[Hall _]|(pre & f & post & _ & _ & _ & Eerr)];
    [|rewrite Epop in Eerr; discriminate].
  rewrite (PopulateFromSDP_ok _ _ EU Hall) in Epop. inversion Epop; subst; simpl.
  split; [reflexivity|]. intros f Hf.
  rewrite Forall_forall in Hall. destruct (Hall f Hf) as (pc & Hb).
  unfold contribution. rewrite Hb. unfold bound in Hb.
  destruct (declaredPayloadType f) as [pt|]; [|discriminate].
  exists pt, pc. repeat split; try assumption.
  - intros Hk. apply (switchName_known pc pt) in Hk. now rewrite Hk.
  - intros Hk. destruct (switchName pc pt) as [c|] eqn:E.
    + destruct (switchName_fields _ _ _ E) as (HN & HPT & HCR & _).
      exists c. repeat split; try assumption. now apply (switchName_fmtp pc pt).
    + apply (switchName_known pc pt) in E. congruence.
Qed.

End Accepted.

(** ** The forwarding loop and the subscriber loop *)

Section Relay.
Context {pkg : Package} {lib : sdp.Library}.

Lemma run_panicked (which : example) (r : relay) (v : panicValue) (evs : list event) :
  run which (Panicked r v) evs = Panicked r v.
Proof. induction evs as [|e evs IH]; simpl; [reflexivity|exact IH]. Qed.

(** The forwarding loop is the program run on packet turns alone. *)
Lemma run_packets (which : example) (r : relay) (script : list turn) :
  run which (Running r) (map Packet script) = forwardingLoop r script.
Proof.
  revert r; induction script as [|t script IH]; intros r; simpl; [reflexivity|].
  destruct (forwardTurn r t) as [r'|r' v]; [apply IH|apply run_panicked].
Qed.

(** C7. In a turn of the forwarding loop whose read succeeds, a write
    that fails with [io.ErrClosedPipe] is passed over and the loop goes on
    with the next turn; a write that fails with any other error ends the
    loop with a panic, and so does a read that fails.  The rest of the
    script has no effect after a panic, and a panicked program takes no
    further turn. *)
Theorem C7_forwarding_policy (r : relay) (t : turn) (rest : list turn) :
  (forall packet,
      readResult t = inl packet -> writeResult t = Some ErrClosedPipe ->
      forwardingLoop r (t :: rest) =
      forwardingLoop {| written := written r ++ [(packet, Some ErrClosedPipe)];
                        subscribers := subscribers r |} rest)
  /\ (forall packet msg,
        readResult t = inl packet -> writeResult t = Some (ErrOther msg) ->
        forwardingLoop r (t :: rest) =
        Panicked {| written := written r ++ [(packet, Some (ErrOther msg))];
                    subscribers := subscribers r |} (PanicIO (ErrOther msg)))
  /\ (forall readErr,
        readResult t = inr readErr ->
        forwardingLoop r (t :: rest) = Panicked r (PanicIO readErr))
  /\ (forall which r' v evs,
        forwardingLoop r (t :: rest) = Panicked r' v ->
        run which (forwardingLoop r (t :: rest)) evs = Panicked r' v).
Proof.
  repeat split.
  - intros packet ER EW. simpl. unfold forwardTurn. now rewrite ER, EW.
  - intros packet msg ER EW. simpl. unfold forwardTurn. now rewrite ER, EW.
  - intros readErr ER. simpl. unfold forwardTurn. now rewrite ER.
  - intros which r' v evs ->. apply run_panicked.
Qed.

(** C3, amended. A subscriber's offer that fails negotiation is passed to
    [panic] in [main]: the program ends in the state in which the offer
    found the relay, and no later turn of either loop has an effect: no
    packet is forwarded any more and no subscriber is attached. *)
Theorem C3_failed_offer_panics (which : example) (r : relay)
    (recvOnlyOffer : SessionDescription) (peerErr : option string)
    (err : error) (evs : list event) :
  negotiateVP8 which recvOnlyOffer = inr err ->
  run which (Running r) (Offer recvOnlyOffer peerErr :: evs) =
  Panicked r (PanicNegotiation err).
Proof.
  intros E. simpl. unfold subscriberTurn. rewrite E. apply run_panicked.
Qed.

End Relay.

(** ** Lookup of a single codec by payload type *)

Section GetCodec.
Context {pkg : Package} {lib : sdp.Library}.

Lemma getCodecIn_app (a b : list RTPCodec) (pt : Z) :
  getCodecIn (a ++ b) pt =
  match getCodecIn a pt with
  | inl c => inl c
  | inr _ => getCodecIn b pt
  end.
Proof.
  induction a as [|c a IH]; simpl; [reflexivity|].
  destruct (PayloadType c =? pt); [reflexivity|exact IH].
Qed.

Lemma getCodecIn_missing (cs : list RTPCodec) (pt : Z) :
  getCodecIn cs pt = inr ErrCodecNotFound <->
  forall c, In c cs -> PayloadType c <> pt.
Proof.
  induction cs as [|c cs IH]; simpl.
  - split; [intros _ c []|reflexivity].
  - destruct (PayloadType c =? pt) eqn:E.
    + apply Z.eqb_eq in E. split; [discriminate|].
      intros Hall. now destruct (Hall c (or_introl eq_refl)).
    + apply Z.eqb_neq in E. rewrite IH. split.
      * intros Hall c' [<-|Hc']; auto.
      * intros Hall c' Hc'. apply Hall. now right.
Qed.

Lemma getCodecIn_found (cs : list RTPCodec) (pt : Z) (c : RTPCodec) :
  getCodecIn cs pt = inl c <->
  exists pre post, cs = pre ++ c :: post /\ PayloadType c = pt
                   /\ forall c', In c' pre -> PayloadType c' <> pt.
Proof.
  induction cs as [|c0 cs IH]; simpl.
  - split; [discriminate|]. intros ([|? ?] & post & E & _); discriminate E.
  - destruct (PayloadType c0 =? pt) eqn:E0.
    + apply Z.eqb_eq in E0. split.
      * intros E; inversion E; subst. exists [], cs. repeat split. intros c' [].
      * intros ([|c1 pre] & post & E & HP & Hpre); simpl in E; inversion E; subst.
        -- reflexivity.
        -- now destruct (Hpre c1 (or_introl eq_refl)).
    + apply Z.eqb_neq in E0. rewrite IH. split.
      * intros (pre & post & -> & HP & Hpre). exists (c0 :: pre), post.
        repeat split; [assumption|]. intros c' [<-|Hc']; auto.
      * intros ([|c1 pre] & post & E & HP & Hpre); simpl in E; inversion E; subst.
        -- contradiction.
        -- exists pre, post. repeat split. intros c' Hc'. apply Hpre. now right.
Qed.

(** X1. [getCodec] returns the first codec, in registration order, that has
    the payload type, and [ErrCodecNotFound] exactly when no registered
    codec has it. *)
Theorem getCodec_first_match (m : MediaEngine) (payloadType : Z) :
  (forall c, getCodec m payloadType = inl c <->
             exists pre post,
               codecs m = pre ++ c :: post /\ PayloadType c = payloadType
               /\ forall c', In c' pre -> PayloadType c' <> payloadType)
  /\ (getCodec m payloadType = inr ErrCodecNotFound <->
      forall c, In c (codecs m) -> PayloadType c <> payloadType).
Proof.
  split; [intros c; apply getCodecIn_found|apply getCodecIn_missing].
Qed.

(** X2. A codec registered under a payload type that the engine does not hold
    yet is what [getCodec] returns for the payload type that [RegisterCodec]
    returned. *)
Theorem getCodec_after_RegisterCodec (m : MediaEngine) (codec : RTPCodec) :
  (forall c, In c (codecs m) -> PayloadType c <> PayloadType codec) ->
  getCodec (snd (RegisterCodec m codec)) (fst (RegisterCodec m codec)) = inl codec.
Proof.
  intros Hfresh. unfold getCodec, RegisterCodec; simpl.
  rewrite getCodecIn_app.
  apply getCodecIn_missing in Hfresh. rewrite Hfresh. simpl.
  now rewrite Z.eqb_refl.
Qed.

(** What [PopulateFromSDP] returns on any engine, from what it returns on
    an empty one: the same error, and the codecs appended to those that
    the engine held. *)
Lemma populateFormats_frame (sdpsd : sdp.SessionDescription) (m : MediaEngine)
    (formats : list string) :
  populateFormats sdpsd m formats =
  ({| codecs := codecs m ++ codecs (fst (populateFormats sdpsd emptyEngine formats)) |},
   snd (populateFormats sdpsd emptyEngine formats)).
Proof.
  destruct (formats_shape sdpsd formats) as [Hall|(pre & f & post & -> & Hpre & Hf)].
  - now rewrite !(populateFormats_ok _ _ _ Hall).
  - now rewrite !populateFormats_defect by assumption.
Qed.

Lemma PopulateFromSDP_frame (m : MediaEngine) (sd : SessionDescription) :
  PopulateFromSDP m sd =
  ({| codecs := codecs m ++ codecs (fst (PopulateFromSDP emptyEngine sd)) |},
   snd (PopulateFromSDP emptyEngine sd)).
Proof.
  unfold PopulateFromSDP. destruct (sdp.Unmarshal (SDP sd)) as [sdpsd|err]; simpl.
  - rewrite !populateMedia_flat. apply populateFormats_frame.
  - rewrite app_nil_r. now destruct m.
Qed.

(** X4. [PopulateFromSDP] only appends to the engine it is called on, and
    neither the codecs it appends nor the error it returns depend on what
    the engine held.  It does not look for codecs it registered before:
    called twice with one description, it registers the codecs of the
    description twice. *)
Theorem PopulateFromSDP_appends (m : MediaEngine) (sd : SessionDescription) :
  codecs (fst (PopulateFromSDP m sd)) =
    codecs m ++ codecs (fst (PopulateFromSDP emptyEngine sd))
  /\ snd (PopulateFromSDP m sd) = snd (PopulateFromSDP emptyEngine sd)
  /\ codecs (fst (PopulateFromSDP (fst (PopulateFromSDP m sd)) sd)) =
     codecs m ++ codecs (fst (PopulateFromSDP emptyEngine sd))
              ++ codecs (fst (PopulateFromSDP emptyEngine sd)).
Proof.
  repeat split.
  - now rewrite PopulateFromSDP_frame.
  - now rewrite PopulateFromSDP_frame.
  - rewrite (PopulateFromSDP_frame (fst (PopulateFromSDP m sd))). simpl.
    rewrite (PopulateFromSDP_frame m). simpl. now rewrite <- app_assoc.
Qed.

(** X3. A codec that [getCodec] finds stays the one it finds after any further
    [RegisterCodec] calls and after [PopulateFromSDP], whatever the latter
    returns: later registrations never shadow an earlier one. *)
Theorem getCodec_stable (m : MediaEngine) (payloadType : Z) (c : RTPCodec) :
  getCodec m payloadType = inl c ->
  (forall cs, getCodec (registerAll m cs) payloadType = inl c)
  /\ (forall sd, getCodec (fst (PopulateFromSDP m sd)) payloadType = inl c).
Proof.
  intros E. unfold getCodec in *. split.
  - intros cs. now rewrite registerAll_codecs, getCodecIn_app, E.
  - intros sd. rewrite PopulateFromSDP_frame. simpl.
    now rewrite getCodecIn_app, E.
Qed.

(** X5. When [PopulateFromSDP] stops at a format, the codecs of the formats
    before it stay registered: the engine is not rolled back. *)
Theorem PopulateFromSDP_keeps_earlier (m : MediaEngine) (sd : SessionDescription)
    (sdpsd : sdp.SessionDescription) (pre post : list string) (f : string) :
  sdp.Unmarshal (SDP sd) = inl sdpsd ->
  sdp.allFormats sdpsd = pre ++ f :: post ->
  Forall (resolves sdpsd) pre ->
  bound sdpsd f = None ->
  PopulateFromSDP m sd =
  ({| codecs := codecs m ++ flat_map (contribution sdpsd) pre |}, Some (defect f)).
Proof.
  intros EU E Hpre Hf. rewrite (PopulateFromSDP_parsed _ _ _ EU), E.
  now apply populateFormats_defect.
Qed.

Lemma contribution_same_payload_type (sdpsd : sdp.SessionDescription) (f f' : string) :
  declaredPayloadType f = declaredPayloadType f' ->
  contribution sdpsd f = contribution sdpsd f'.
Proof. intros E. unfold contribution, bound. now rewrite E. Qed.

Lemma contributed_by_payload_type (sdpsd : sdp.SessionDescription)
    (formats : list string) (f : string) (c : RTPCodec) :
  In c (flat_map (contribution sdpsd) formats) ->
  declaredPayloadType f = Some (PayloadType c) ->
  contribution sdpsd f = [c].
Proof.
  intros Hc Hf. apply in_flat_map in Hc. destruct Hc as (f' & _ & Hc).
  destruct (contribution_built _ _ _ Hc) as (pt & pc & Hd & Hb & E).
  destruct (switchName_fields _ _ _ E) as (_ & HPT & _).
  rewrite (contribution_same_payload_type sdpsd f f') by congruence.
  unfold contribution. now rewrite Hd, Hb, E.
Qed.

(** X6. In the registry of an accepted description, [getCodec] at the payload
    type of a declared format returns the codec registered for that format
    when the bound name is a known one, and [ErrCodecNotFound] when it is
    not; at a payload type that no format declares it returns
    [ErrCodecNotFound]. *)
Theorem getCodec_after_PopulateFromSDP (sd : SessionDescription)
    (sdpsd : sdp.SessionDescription) (m : MediaEngine) :
  sdp.Unmarshal (SDP sd) = inl sdpsd ->
  PopulateFromSDP emptyEngine sd = (m, None) ->
  (forall f payloadType payloadCodec,
      In f (sdp.allFormats sdpsd) ->
      declaredPayloadType f = Some payloadType ->
      bound sdpsd f = Some payloadCodec ->
      if knownName (sdp.Name payloadCodec)
      then exists c, getCodec m payloadType = inl c
                     /\ contribution sdpsd f = [c]
                     /\ PayloadType c = payloadType
                     /\ Name c = sdp.Name payloadCodec
                     /\ ClockRate (Capability c) = sdp.ClockRate payloadCodec
      else getCodec m payloadType = inr ErrCodecNotFound)
  /\ (forall payloadType,
        ~ In payloadType (declaredPayloadTypes sdpsd) ->
        getCodec m payloadType = inr ErrCodecNotFound).
Proof.
  intros EU Epop.
  destruct (PopulateFromSDP_registry sd sdpsd m EU Epop) as (Ecs & _).
  unfold getCodec. split.
  - intros f pt pc Hin Hd Hb.
    destruct (knownName (sdp.Name pc)) eqn:Hk.
    + destruct (switchName pc pt) as [c|] eqn:E;
        [|apply (switchName_known pc pt) in E; congruence].
      destruct (switchName_fields _ _ _ E) as (HN & HPT & HCR & _).
      assert (Ef : contribution sdpsd f = [c])
        by (unfold contribution; now rewrite Hd, Hb, E).
      assert (Hc : In c (codecs m)).
      { rewrite Ecs. apply in_flat_map. exists f. split; [assumption|].
        rewrite Ef. now left. }
      destruct (getCodecIn (codecs m) pt) as [c'|[]] eqn:Eg.
      * apply (proj1 (getCodecIn_found _ _ _)) in Eg. destruct Eg as (pre' & post' & Ecs' & HP' & _).
        assert (Hc' : In c' (flat_map (contribution sdpsd) (sdp.allFormats sdpsd))).
        { rewrite <- Ecs, Ecs'. apply in_or_app. right. now left. }
        rewrite <- HP' in Hd.
        pose proof (contributed_by_payload_type sdpsd _ f c' Hc' Hd) as Ef'.
        rewrite Ef in Ef'. inversion Ef'; subst c'.
        exists c. now repeat split.
      * pose proof (proj1 (getCodecIn_missing _ _) Eg) as Hmiss.
        now destruct (Hmiss c Hc).
    + apply getCodecIn_missing. intros c Hc HP.
      rewrite Ecs in Hc.
      rewrite <- HP in Hd.
      pose proof (contributed_by_payload_type sdpsd _ f c Hc Hd) as Ef.
      unfold contribution in Ef. rewrite Hd, Hb in Ef.
      apply (switchName_known pc (PayloadType c)) in Hk. rewrite Hk in Ef. discriminate.
  - intros pt Hnot. apply getCodecIn_missing. intros c Hc HP. apply Hnot.
    rewrite Ecs in Hc. unfold declaredPayloadTypes.
    apply (registered_declared sdpsd). rewrite <- HP. now apply in_map.
Qed.

End GetCodec.

(** ** Lookup of a single codec by its description *)

Section GetCodecSDP.
Context {pkg : Package} {lib : sdp.Library}.

Lemma sdpCondition_agrees (c : RTPCodec) (sc : sdp.Codec) :
  sdpCondition c sc = true <-> agrees c sc.
Proof.
  unfold sdpCondition, agrees.
  rewrite !andb_true_iff, orb_true_iff, !String.eqb_eq, Z.eqb_eq. tauto.
Qed.

Lemma getCodecSDPIn_found (cs : list RTPCodec) (sc : sdp.Codec) (c : RTPCodec) :
  getCodecSDPIn cs sc = inl c ->
  exists pre post, cs = pre ++ c :: post /\ agrees c sc
                   /\ forall c', In c' pre -> ~ agrees c' sc.
Proof.
  induction cs as [|c0 cs IH]; simpl; [discriminate|].
  destruct (sdpCondition c0 sc) eqn:E0.
  - intros E; inversion E; subst. exists [], cs.
    split; [reflexivity|]. split; [now apply sdpCondition_agrees|intros c' []].
  - intros E. destruct (IH E) as (pre & post & -> & Ha & Hpre).
    exists (c0 :: pre), post. split; [reflexivity|]. split; [assumption|].
    intros c' [<-|Hc']; [|now apply Hpre].
    intros Ha'. apply sdpCondition_agrees in Ha'. congruence.
Qed.

Lemma getCodecSDPIn_missing (cs : list RTPCodec) (sc : sdp.Codec) :
  getCodecSDPIn cs sc = inr ErrCodecNotFound <->
  forall c, In c cs -> ~ agrees c sc.
Proof.
  induction cs as [|c0 cs IH]; simpl.
  - split; [intros _ c []|reflexivity].
  - destruct (sdpCondition c0 sc) eqn:E0.
    + split; [discriminate|]. intros Hall. exfalso.
      apply (Hall c0 (or_introl eq_refl)). now apply sdpCondition_agrees.
    + rewrite IH. split.
      * intros Hall c' [<-|Hc']; [|now apply Hall].
        intros Ha. apply sdpCondition_agrees in Ha. congruence.
      * intros Hall c' Hc'. apply Hall. now right.
Qed.

(** X7. [getCodecSDP] returns the first registered codec whose name, clock
    rate and format parameters equal those of the description's codec and
    whose channel count, as decimal text, equals the encoding parameters
    unless these are empty; it returns [ErrCodecNotFound] exactly when no
    registered codec is like that.  The payload type plays no part. *)
Theorem getCodecSDP_first_match (m : MediaEngine) (sdpCodec : sdp.Codec) :
  (forall c, getCodecSDP m sdpCodec = inl c ->
             exists pre post,
               codecs m = pre ++ c :: post /\ agrees c sdpCodec
               /\ forall c', In c' pre -> ~ agrees c' sdpCodec)
  /\ (getCodecSDP m sdpCodec = inr ErrCodecNotFound <->
      forall c, In c (codecs m) -> ~ agrees c sdpCodec).
Proof.
  split; [intros c; apply getCodecSDPIn_found|apply getCodecSDPIn_missing].
Qed.

(** X8. In the registry of an accepted description, a VP8, VP9 or H264 binding
    of the description without encoding parameters is found by
    [getCodecSDP], with the description's name, clock rate and format
    parameters. *)
Theorem getCodecSDP_finds_video (sd : SessionDescription)
    (sdpsd : sdp.SessionDescription) (m : MediaEngine) (f : string)
    (payloadCodec : sdp.Codec) :
  sdp.Unmarshal (SDP sd) = inl sdpsd ->
  PopulateFromSDP emptyEngine sd = (m, None) ->
  In f (sdp.allFormats sdpsd) ->
  bound sdpsd f = Some payloadCodec ->
  sdp.Name payloadCodec = VP8 \/ sdp.Name payloadCodec = VP9
                             \/ sdp.Name payloadCodec = H264 ->
  sdp.EncodingParameters payloadCodec = "" ->
  exists c, getCodecSDP m payloadCodec = inl c
            /\ In c (codecs m)
            /\ Name c = sdp.Name payloadCodec
            /\ ClockRate (Capability c) = sdp.ClockRate payloadCodec
            /\ SDPFmtpLine (Capability c) = sdp.Fmtp payloadCodec.
Proof.
  intros EU Epop Hin Hb HN HE.
  destruct (PopulateFromSDP_registry sd sdpsd m EU Epop) as (Ecs & Hreg).
  destruct (Hreg f Hin) as (pt & pc & Hd & Hl & _ & Hknown).
  assert (pc = payloadCodec) as ->.
  { unfold bound in Hb. rewrite Hd in Hb. congruence. }
  destruct Hknown as (c0 & Ec0 & _ & HN0 & HCR0 & HF0).
  { unfold knownName. destruct HN as [->|[->| ->]]; reflexivity. }
  assert (Hfmtp : SDPFmtpLine (Capability c0) = sdp.Fmtp payloadCodec).
  { rewrite HF0, HN0. destruct HN as [->|[->| ->]]; reflexivity. }
  assert (Hc0 : In c0 (codecs m)).
  { rewrite Ecs. apply in_flat_map. exists f. split; [assumption|].
    rewrite Ec0. now left. }
  unfold getCodecSDP.
  destruct (getCodecSDPIn (codecs m) payloadCodec) as [c|[]] eqn:Eg.
  - destruct (getCodecSDPIn_found _ _ _ Eg) as (pre & post & E & (H1 & H2 & _ & H4) & _).
    exists c. repeat split; try assumption.
    rewrite E. apply in_or_app. right. now left.
  - pose proof (proj1 (getCodecSDPIn_missing _ _) Eg c0 Hc0) as Hno.
    exfalso. apply Hno. unfold agrees. repeat split; auto.
Qed.

(** X9. In a registry that [PopulateFromSDP] filled from an empty engine, every
    opus codec has the format parameters of [NewRTPOpusCodec] and every G722
    codec has none: an opus or G722 binding with other format parameters,
    the description's own included, is not found by [getCodecSDP]. *)
Theorem getCodecSDP_misses_audio (sd : SessionDescription) (sdpCodec : sdp.Codec) :
  (sdp.Name sdpCodec = Opus /\ sdp.Fmtp sdpCodec <> "minptime=10;useinbandfec=1")
  \/ (sdp.Name sdpCodec = G722 /\ sdp.Fmtp sdpCodec <> "") ->
  getCodecSDP (fst (PopulateFromSDP emptyEngine sd)) sdpCodec = inr ErrCodecNotFound.
Proof.
  intros Hsc. apply getCodecSDPIn_missing. intros c Hc (HN & _ & _ & HF).
  destruct (PopulateFromSDP_built sd c Hc) as (pc & pt & E).
  pose proof (switchName_fmtp _ _ _ E) as Hfmtp.
  rewrite HN, HF in Hfmtp.
  destruct Hsc as [[EN Hne]|[EN Hne]]; rewrite EN in Hfmtp; simpl in Hfmtp;
    now apply Hne.
Qed.

End GetCodecSDP.

(** ** Selecting a codec by name, for any name *)

Section AnyName.
Context {pkg : Package} {lib : sdp.Library}.

Lemma built_known (c : RTPCodec) : built c -> knownName (Name c) = true.
Proof.
  intros (pc & pt & E).
  destruct (switchName_fields _ _ _ E) as (-> & _).
  destruct (knownName (sdp.Name pc)) eqn:Hk; [reflexivity|].
  apply (switchName_known pc pt) in Hk. congruence.
Qed.

(** X10. [preferredCodec] never returns a codec for a name other than the five
    that [PopulateFromSDP] has a case for, whether the description
    advertises the name or not: it returns the error of [PopulateFromSDP],
    or its own error when the description is accepted.  Names are compared
    as they are written, so [vp8] is such a name. *)
Theorem preferredCodec_unknown_name (codecName : string) (sd : SessionDescription) :
  knownName codecName = false ->
  preferredCodec codecName sd =
  inr (match snd (PopulateFromSDP emptyEngine sd) with
       | Some err => err
       | None => ErrNoCodecInDescription codecName
       end).
Proof.
  intros Hk. unfold preferredCodec.
  destruct (PopulateFromSDP emptyEngine sd) as [m [err|]] eqn:Epop; simpl; [reflexivity|].
  rewrite GetCodecsByName_filter, filter_none; [reflexivity|].
  intros c Hc. destruct (String.eqb (Name c) codecName) eqn:EN; [|reflexivity].
  apply String.eqb_eq in EN.
  assert (Hb : built c) by (apply (PopulateFromSDP_built sd); now rewrite Epop).
  apply built_known in Hb. congruence.
Qed.

(** X11. For each of the five known names: in a description that parses and
    whose formats all resolve, [preferredCodec] returns the codec of the
    first format that the description binds to the name, with the payload
    type that the format declares, the bound clock rate and the kind of the
    name; [firstCodecOfType] with that kind returns the same payload
    type. *)
Theorem first_advertised_any_name (codecName : string) (sd : SessionDescription)
    (sdpsd : sdp.SessionDescription) (pre post : list string) (f : string)
    (payloadCodec : sdp.Codec) (P : Z) :
  knownName codecName = true ->
  sdp.Unmarshal (SDP sd) = inl sdpsd ->
  Forall (resolves sdpsd) (sdp.allFormats sdpsd) ->
  sdp.allFormats sdpsd = pre ++ f :: post ->
  (forall g, In g pre -> ~ advertises sdpsd codecName g) ->
  bound sdpsd f = Some payloadCodec ->
  sdp.Name payloadCodec = codecName ->
  declaredPayloadType f = Some P ->
  exists codec m,
    preferredCodec codecName sd = inl codec
    /\ PayloadType codec = P
    /\ Name codec = codecName
    /\ Type_ codec = kindOf codecName
    /\ ClockRate (Capability codec) = sdp.ClockRate payloadCodec
    /\ PopulateFromSDP emptyEngine sd = (m, None)
    /\ firstCodecOfType m codecName (kindOf codecName) = inl P.
Proof.
  intros Hk EU Hall Esplit Hpre Hb HN HP.
  pose proof (PopulateFromSDP_ok _ _ EU Hall) as Epop.
  destruct (switchName payloadCodec P) as [c|] eqn:E;
    [|apply (switchName_known payloadCodec P) in E; congruence].
  destruct (switchName_fields _ _ _ E) as (HNc & HPT & HCR & _ & HT).
  assert (Ec : contribution sdpsd f = [c])
    by (unfold contribution; now rewrite HP, Hb, E).
  set (m := {| codecs := flat_map (contribution sdpsd) (sdp.allFormats sdpsd) |}) in *.
  assert (EN : exists tl, GetCodecsByName m codecName = c :: tl).
  { rewrite GetCodecsByName_filter. unfold m; simpl.
    rewrite Esplit, flat_map_app, filter_app. simpl. rewrite Ec.
    rewrite filter_none.
    - simpl. rewrite HNc, HN, String.eqb_refl. simpl. now eexists.
    - intros x Hx. apply in_flat_map in Hx. destruct Hx as (g & Hg & Hx).
      destruct (String.eqb (Name x) codecName) eqn:EX; [|reflexivity].
      apply String.eqb_eq in EX. exfalso. apply (Hpre g Hg).
      rewrite <- EX. now apply contribution_name. }
  destruct EN as (tl & EN).
  assert (Hkind : forall c', In c' (codecs m) -> Name c' = codecName ->
                             Type_ c' = kindOf codecName).
  { intros c' Hc' HN'.
    assert (Hb' : built c') by (apply (PopulateFromSDP_built sd); now rewrite Epop).
    destruct Hb' as (pc' & pt' & E').
    destruct (switchName_fields _ _ _ E') as (_ & _ & _ & _ & HT').
    rewrite HT', HN'. reflexivity. }
  exists c, m. repeat split.
  - rewrite (preferredCodec_first _ _ _ Epop), EN. reflexivity.
  - exact HPT.
  - congruence.
  - rewrite HT, HNc, HN. reflexivity.
  - exact HCR.
  - exact Epop.
  - pose proof (firstCodecOfType_first m codecName (kindOf codecName) Hkind) as HF.
    rewrite EN in HF. now rewrite HF, HPT.
Qed.

Lemma firstNamed_none (cs : list RTPCodec) (codecName : string) :
  (forall c, In c cs -> Name c <> codecName) ->
  firstNamed cs codecName = inr (ErrNoCodecsFound codecName).
Proof.
  induction cs as [|c cs IH]; intros Hno; simpl; [reflexivity|].
  destruct (String.eqb (Name c) codecName) eqn:EN.
  - apply String.eqb_eq in EN. now destruct (Hno c (or_introl eq_refl)).
  - apply IH. intros c' Hc'. apply Hno. now right.
Qed.

(** X12. [firstCodecOfType] on any engine: the payload type of the first codec
    that has both the kind and the name; the error that names the kind when
    the engine has no codec of the kind at all; the error that names the
    codec when it has codecs of the kind but none with the name. *)
Theorem firstCodecOfType_cases (m : MediaEngine) (codecName : string)
    (kind : RTPCodecType) :
  (forall pre c post,
      codecs m = pre ++ c :: post ->
      Type_ c = kind -> Name c = codecName ->
      (forall c', In c' pre -> ~ (Type_ c' = kind /\ Name c' = codecName)) ->
      firstCodecOfType m codecName kind = inl (PayloadType c))
  /\ ((forall c, In c (codecs m) -> Type_ c <> kind) ->
      firstCodecOfType m codecName kind =
      inr (ErrNoCodecsFound (RTPCodecType_String kind)))
  /\ (forall c0, In c0 (codecs m) -> Type_ c0 = kind ->
      (forall c, In c (codecs m) -> Type_ c = kind -> Name c <> codecName) ->
      firstCodecOfType m codecName kind = inr (ErrNoCodecsFound codecName)).
Proof.
  unfold firstCodecOfType. rewrite GetCodecsByKind_filter. repeat split.
  - intros pre c post E HT HN Hpre. rewrite E, filter_app. simpl.
    rewrite HT, Z.eqb_refl.
    assert (Hf : firstNamed (filter (fun c0 => Type_ c0 =? kind) pre ++ c ::
                               filter (fun c0 => Type_ c0 =? kind) post) codecName
                 = inl (PayloadType c)).
    { clear E. induction pre as [|c1 pre IH]; simpl.
      - now rewrite HN, String.eqb_refl.
      - assert (IH' := IH (fun c' Hc' => Hpre c' (or_intror Hc'))).
        destruct (Type_ c1 =? kind) eqn:E1; [|exact IH']. simpl.
        destruct (String.eqb (Name c1) codecName) eqn:EN1; [|exact IH'].
        apply Z.eqb_eq in E1. apply String.eqb_eq in EN1.
        now destruct (Hpre c1 (or_introl eq_refl)). }
    destruct (filter (fun c0 => Type_ c0 =? kind) pre ++ c ::
                filter (fun c0 => Type_ c0 =? kind) post) eqn:El; [|exact Hf].
    now destruct (filter (fun c0 => Type_ c0 =? kind) pre).
  - intros Hno. rewrite filter_none; [reflexivity|].
    intros c Hc. apply Z.eqb_neq. now apply Hno.
  - intros c0 Hc0 HT0 Hno.
    assert (Hin : In c0 (filter (fun c => Type_ c =? kind) (codecs m))).
    { apply filter_In. split; [assumption|]. now apply Z.eqb_eq. }
    destruct (filter (fun c => Type_ c =? kind) (codecs m)) as [|c1 l] eqn:El;
      [destruct Hin|].
    apply firstNamed_none. intros c Hc. rewrite <- El in Hc.
    apply filter_In in Hc. destruct Hc as (Hc & HT). apply Z.eqb_eq in HT.
    now apply Hno.
Qed.

(** X13. Every codec that [PopulateFromSDP] registers, whatever it returns in
    the end: its payload type is within [0, 255], also when the format is
    not; its name is one of the five known names, which fixes its kind and
    its channel count; its MIME type is the kind, a slash and the name; it
    has no RTCP feedback. *)
Theorem PopulateFromSDP_invariants (sd : SessionDescription) (c : RTPCodec) :
  In c (codecs (fst (PopulateFromSDP emptyEngine sd))) ->
  0 <= PayloadType c < 256
  /\ knownName (Name c) = true
  /\ Type_ c = kindOf (Name c)
  /\ Channels (Capability c) = channelsOf (Name c)
  /\ MimeType (Capability c) = (RTPCodecType_String (Type_ c) ++ "/" ++ Name c)%string
  /\ RTCPFeedback_ (Capability c) = [].
Proof.
  unfold PopulateFromSDP.
  destruct (sdp.Unmarshal (SDP sd)) as [sdpsd|err]; [|intros []].
  rewrite populateMedia_flat.
  destruct (populateFormats_prefix sdpsd emptyEngine
              (flat_map (fun md => sdp.Formats (sdp.MediaName_ md))
                        (sdp.MediaDescriptions sdpsd)))
    as (pre & post & _ & ->).
  simpl. rewrite in_flat_map. intros (f & _ & Hc).
  destruct (contribution_built _ _ _ Hc) as (pt & pc & Hd & _ & E).
  assert (Hrange : 0 <= pt < 256).
  { unfold declaredPayloadType in Hd. destruct (strconv.Atoi f) as [n|]; [|discriminate].
    inversion Hd; subst. unfold uint8. apply Z.mod_pos_bound. lia. }
  assert (Hb : built c) by (now exists pc, pt).
  pose proof (built_known c Hb) as Hk.
  destruct (switchName_fields _ _ _ E) as (_ & HPT & _ & _ & HT).
  split; [now rewrite HPT|]. split; [exact Hk|]. split; [exact HT|].
  revert E. unfold switchName.
  destruct (String.eqb (sdp.Name pc) G722);
    [|destruct (String.eqb (sdp.Name pc) Opus);
      [|destruct (String.eqb (sdp.Name pc) VP8);
        [|destruct (String.eqb (sdp.Name pc) VP9);
          [|destruct (String.eqb (sdp.Name pc) H264)]]]];
    intros E; inversion E; subst; repeat split; reflexivity.
Qed.

End AnyName.

(** ** The loops, turn after turn *)

Section Loops.
Context {pkg : Package} {lib : sdp.Library}.

Lemma forwardTurn_benign (r : relay) (t : turn) :
  benign t = true ->
  forwardTurn r t = Running {| written := written r ++ writeOf t;
                               subscribers := subscribers r |}.
Proof.
  unfold benign, forwardTurn, writeOf.
  destruct (readResult t) as [packet|readErr]; [|discriminate].
  destruct (writeResult t) as [err|]; [|reflexivity].
  intros ->. reflexivity.
Qed.

Lemma forwardTurn_fatal (r : relay) (t : turn) (v : panicValue) :
  fatalValue t = Some v ->
  forwardTurn r t = Panicked {| written := written r ++ writeOf t;
                                subscribers := subscribers r |} v.
Proof.
  unfold fatalValue, forwardTurn, writeOf.
  destruct (readResult t) as [packet|readErr].
  - destruct (writeResult t) as [err|]; [|discriminate].
    destruct (isErrClosedPipe err); [discriminate|].
    intros E; inversion E; subst. reflexivity.
  - intros E; inversion E; subst. rewrite app_nil_r. now destruct r.
Qed.

Lemma forwardingLoop_benign (r : relay) (pre rest : list turn) :
  Forall (fun t => benign t = true) pre ->
  forwardingLoop r (pre ++ rest) =
  forwardingLoop {| written := written r ++ flat_map writeOf pre;
                    subscribers := subscribers r |} rest.
Proof.
  revert r; induction pre as [|t pre IH]; intros r Hall; simpl.
  - rewrite app_nil_r. now destruct r.
  - inversion Hall as [|? ? Ht Hrest]; subst.
    rewrite (forwardTurn_benign r t Ht), (IH _ Hrest). simpl.
    now rewrite <- app_assoc.
Qed.

(** X14. While every read succeeds and every write returns [nil] or
    [io.ErrClosedPipe], the forwarding loop keeps running, and it has called
    [Write] once for each packet read, in the order read, with exactly the
    bytes read; the set of subscribers is as it was. *)
Theorem forwardingLoop_forwards_all (r : relay) (script : list turn) :
  Forall (fun t => benign t = true) script ->
  forwardingLoop r script =
  Running {| written := written r ++ flat_map writeOf script;
             subscribers := subscribers r |}.
Proof.
  intros Hall. rewrite <- (app_nil_r script) at 1.
  now rewrite (forwardingLoop_benign r script [] Hall).
Qed.

(** X15. The forwarding loop panics at the first turn whose read fails or whose
    write fails with an error other than [io.ErrClosedPipe], with that
    error; the packets of the turns before it were written, the packet of
    that turn was passed to [Write] if it was read, and nothing of the
    turns after it is read or written. *)
Theorem forwardingLoop_first_fatal (r : relay) (pre post : list turn) (t : turn)
    (v : panicValue) :
  Forall (fun t => benign t = true) pre ->
  fatalValue t = Some v ->
  forwardingLoop r (pre ++ t :: post) =
  Panicked {| written := written r ++ flat_map writeOf pre ++ writeOf t;
              subscribers := subscribers r |} v.
Proof.
  intros Hpre Hv. rewrite (forwardingLoop_benign r pre (t :: post) Hpre).
  simpl. rewrite (forwardTurn_fatal _ t v Hv). simpl. now rewrite <- app_assoc.
Qed.

Lemma extends_refl (A : Type) (l : list A) : extends l l.
Proof. exists []. now rewrite app_nil_r. Qed.

Lemma extends_trans (A : Type) (l1 l2 l3 : list A) :
  extends l1 l2 -> extends l2 l3 -> extends l1 l3.
Proof.
  intros (a & ->) (b & ->). exists (a ++ b). now rewrite app_assoc.
Qed.

Lemma step_relay (which : example) (p : process) (e : event) :
  extends (written (relayOf p)) (written (relayOf (step which p e)))
  /\ extends (subscribers (relayOf p)) (subscribers (relayOf (step which p e)))
  /\ (forall t, e = Packet t ->
        subscribers (relayOf (step which p e)) = subscribers (relayOf p))
  /\ (forall sd peerErr, e = Offer sd peerErr ->
        written (relayOf (step which p e)) = written (relayOf p)).
Proof.
  destruct p as [r|r v]; simpl.
  - destruct e as [t|sd peerErr]; simpl.
    + unfold forwardTurn.
      destruct (readResult t) as [packet|readErr]; simpl.
      * destruct (writeResult t) as [err|]; [destruct (isErrClosedPipe err)|]; simpl;
          repeat split; try apply extends_refl; try discriminate;
          now eexists.
      * repeat split; try apply extends_refl; discriminate.
    + unfold subscriberTurn.
      destruct (negotiateVP8 which sd) as [pt|err]; simpl;
        [destruct peerErr as [msg|]; simpl|];
        repeat split; try apply extends_refl; try discriminate;
        now eexists.
  - repeat split; apply extends_refl.
Qed.

(** X16. Whatever the turns of the two loops and however they interleave, the
    program only appends: the [Write] calls made and the subscribers
    attached at the start are still there, in place, at the end.  Turns of
    the forwarding loop attach nothing, and turns of the subscriber loop
    write nothing. *)
Theorem run_append_only (which : example) (p : process) (evs : list event) :
  extends (written (relayOf p)) (written (relayOf (run which p evs)))
  /\ extends (subscribers (relayOf p)) (subscribers (relayOf (run which p evs)))
  /\ ((forall e, In e evs -> exists t, e = Packet t) ->
      subscribers (relayOf (run which p evs)) = subscribers (relayOf p))
  /\ ((forall e, In e evs -> exists sd peerErr, e = Offer sd peerErr) ->
      written (relayOf (run which p evs)) = written (relayOf p)).
Proof.
  revert p; induction evs as [|e evs IH]; intros p; simpl.
  - repeat split; apply extends_refl.
  - destruct (IH (step which p e)) as (IW & IS & IP & IO).
    destruct (step_relay which p e) as (SW & SS & SP & SO).
    repeat split.
    + exact (extends_trans _ _ _ _ SW IW).
    + exact (extends_trans _ _ _ _ SS IS).
    + intros Hall. rewrite IP by (intros e' He'; apply Hall; now right).
      destruct (Hall e (or_introl eq_refl)) as (t & ->). now apply (SP t).
    + intros Hall. rewrite IO by (intros e' He'; apply Hall; now right).
      destruct (Hall e (or_introl eq_refl)) as (sd & peerErr & ->).
      now apply (SO sd peerErr).
Qed.

(** X17. Offers that all negotiate, with peer connections that all come up:
    the program keeps running and has attached one engine for each offer,
    in the order of the offers, each holding a single VP8 codec with the
    payload type negotiated from that offer and the clock rate 90000. *)
Theorem offers_attach_in_order (which : example) (r : relay)
    (offers : list SessionDescription) (payloadTypes : list Z) :
  Forall2 (fun sd payloadType => negotiateVP8 which sd = inl payloadType)
          offers payloadTypes ->
  run which (Running r) (map (fun sd => Offer sd None) offers) =
  Running {| written := written r;
             subscribers := subscribers r ++ map vp8Engine payloadTypes |}.
Proof.
  intros Hall. revert r. induction Hall as [|sd pt sds pts Hsd _ IH]; intros r; simpl.
  - rewrite app_nil_r. now destruct r.
  - unfold subscriberTurn. rewrite Hsd. rewrite IH. simpl.
    now rewrite <- app_assoc.
Qed.

End Loops.

(** ** The default codecs, and codec kinds as text *)

Section Defaults.
Context {pkg : Package}.

(** X18. [RegisterDefaultCodecs] appends opus, G722, VP8, H264 and VP9, in this
    order, to what the engine holds.  Afterwards [getCodec] finds each of
    them under its default payload type, provided the engine held no codec
    with that payload type before, and the lookups by kind return what they
    returned before followed by the default codecs of the kind. *)
Theorem RegisterDefaultCodecs_lookups (m : MediaEngine) :
  codecs (RegisterDefaultCodecs m) = codecs m ++ defaultCodecs
  /\ (forall c, In c defaultCodecs ->
        (forall c', In c' (codecs m) -> PayloadType c' <> PayloadType c) ->
        getCodec (RegisterDefaultCodecs m) (PayloadType c) = inl c)
  /\ GetCodecsByKind (RegisterDefaultCodecs m) RTPCodecTypeAudio =
     GetCodecsByKind m RTPCodecTypeAudio
     ++ [NewRTPOpusCodec DefaultPayloadTypeOpus 48000;
         NewRTPG722Codec DefaultPayloadTypeG722 8000]
  /\ GetCodecsByKind (RegisterDefaultCodecs m) RTPCodecTypeVideo =
     GetCodecsByKind m RTPCodecTypeVideo
     ++ [NewRTPVP8Codec DefaultPayloadTypeVP8 90000;
         NewRTPH264Codec DefaultPayloadTypeH264 90000;
         NewRTPVP9Codec DefaultPayloadTypeVP9 90000].
Proof.
  assert (E : codecs (RegisterDefaultCodecs m) = codecs m ++ defaultCodecs).
  { unfold RegisterDefaultCodecs, RegisterCodec, defaultCodecs; simpl.
    now rewrite <- !app_assoc. }
  split; [exact E|]. split; [|split].
  - intros c Hc Hfresh. unfold getCodec. rewrite E, getCodecIn_app.
    rewrite (proj2 (getCodecIn_missing _ _) Hfresh).
    unfold defaultCodecs in *. simpl in Hc.
    destruct Hc as [<-|[<-|[<-|[<-|[<-|[]]]]]]; reflexivity.
  - rewrite !GetCodecsByKind_filter, E, filter_app. reflexivity.
  - rewrite !GetCodecsByKind_filter, E, filter_app. reflexivity.
Qed.

(** X19. With a case folding under which [audio] and [video] each equal
    themselves and [video] does not equal [audio], the text of the audio
    kind and of the video kind is read back by [NewRTPCodecType] as the kind
    it came from. *)
Theorem NewRTPCodecType_of_String {folding : strings.Folding} (t : RTPCodecType) :
  strings.EqualFold "audio" "audio" = true ->
  strings.EqualFold "video" "audio" = false ->
  strings.EqualFold "video" "video" = true ->
  t = RTPCodecTypeAudio \/ t = RTPCodecTypeVideo ->
  NewRTPCodecType (RTPCodecType_String t) = t.
Proof.
  intros Haa Hva Hvv [-> | ->]; unfold NewRTPCodecType, RTPCodecType_String; simpl.
  - now rewrite Haa.
  - now rewrite Hva, Hvv.
Qed.

End Defaults.

(** * The code on concrete offers *)

#[local] Existing Instance pionPackage.
#[local] Existing Instance offerLibrary.

Lemma C1_first_advertised_VP8_witness :
  (exists codec, preferredCodec VP8 publisherOffer = inl codec /\ PayloadType codec = 96)
  /\ (exists m, PopulateFromSDP emptyEngine publisherOffer = (m, None)
                /\ firstCodecOfType m VP8 RTPCodecTypeVideo = inl 96).
Proof.
  apply (C1_first_advertised_VP8 publisherOffer publisherParsed
           ["111"] ["97"; "98"; "102"] "96" 96).
  - reflexivity.
  - repeat constructor; eexists; reflexivity.
  - reflexivity.
  - intros g [<-|[]] (pc & Hb & HN). vm_compute in Hb. inversion Hb; subst.
    discriminate HN.
  - eexists; split; reflexivity.
  - reflexivity.
Defined.

(** C2, on the audio offer. The description binds the parameters
    [maxplaybackrate=48000;stereo=1;useinbandfec=1] to the opus format 109;
    the registered codec has the payload type and the clock rate of the
    description, and the parameters of [NewRTPOpusCodec] instead of the
    description's. *)
Theorem C2_audio_parameters_not_taken :
  exists c payloadCodec,
    PopulateFromSDP emptyEngine audioOffer = ({| codecs := [c] |}, None)
    /\ bound audioParsed "109" = Some payloadCodec
    /\ knownName (sdp.Name payloadCodec) = true
    /\ PayloadType c = 109
    /\ ClockRate (Capability c) = sdp.ClockRate payloadCodec
    /\ sdp.Fmtp payloadCodec = "maxplaybackrate=48000;stereo=1;useinbandfec=1"
    /\ SDPFmtpLine (Capability c) = "minptime=10;useinbandfec=1"
    /\ SDPFmtpLine (Capability c) <> sdp.Fmtp payloadCodec.
Proof.
  eexists. eexists. repeat split; try reflexivity. discriminate.
Qed.

(** With one subscriber attached, an audio-only offer (no VP8) followed by
    a packet: the packet is not forwarded, the program has panicked;
    without the offer the packet is written. *)
Lemma C3_counterexample :
  negotiateVP8 PreferredCodecExample audioOffer = inr (ErrNoCodecInDescription VP8)
  /\ run PreferredCodecExample (Running attachedRelay) [Packet deliveredTurn] =
     Running {| written := [(packet1, None); (packet2, None)];
                subscribers := subscribers attachedRelay |}
  /\ run PreferredCodecExample (Running attachedRelay)
         [Offer audioOffer None; Packet deliveredTurn] =
     Panicked attachedRelay (PanicNegotiation (ErrNoCodecInDescription VP8))
  /\ run PreferredCodecExample (Running attachedRelay)
         [Offer audioOffer None; Packet deliveredTurn] <>
     run PreferredCodecExample (Running attachedRelay) [Packet deliveredTurn].
Proof.
  repeat split; try reflexivity. discriminate.
Qed.

Lemma C3_failed_offer_panics_witness :
  run FirstCodecOfTypeExample (Running attachedRelay)
      [Offer malformedOffer None; Packet deliveredTurn; Offer subscriberOffer None] =
  Panicked attachedRelay (PanicNegotiation ErrFormatParse).
Proof.
  apply (C3_failed_offer_panics FirstCodecOfTypeExample attachedRelay malformedOffer None
           ErrFormatParse [Packet deliveredTurn; Offer subscriberOffer None]).
  reflexivity.
Defined.

(** On the offer whose formats are [97] (no codec bound) and [abc], a
    format is not an integer and yet the error is not the format-parse
    error: the no-codec error of the earlier format is returned. *)
Lemma C4_counterexample :
  sdp.Unmarshal (SDP brokenOffer) = inl brokenParsed
  /\ snd (PopulateFromSDP emptyEngine brokenOffer) = Some (ErrNoCodecForPayloadType 97)
  /\ ~ (snd (PopulateFromSDP emptyEngine brokenOffer) = Some ErrFormatParse <->
        exists f, In f (sdp.allFormats brokenParsed) /\ strconv.Atoi f = None).
Proof.
  repeat split; try reflexivity.
  intros [_ Hback].
  assert (E : snd (PopulateFromSDP emptyEngine brokenOffer) = Some ErrFormatParse).
  { apply Hback. exists "abc". split; [right; now left|reflexivity]. }
  discriminate E.
Qed.

Lemma C4_first_defect_decides_witness :
  snd (PopulateFromSDP emptyEngine brokenOffer) = Some (ErrNoCodecForPayloadType 97)
  /\ snd (PopulateFromSDP emptyEngine malformedOffer) = Some ErrFormatParse.
Proof.
  split.
  - destruct (C4_first_defect_decides emptyEngine brokenOffer brokenParsed)
      as (_ & Hcodec & _); [reflexivity|].
    apply Hcodec. exists [], "97", ["abc"]. repeat split; try reflexivity. constructor.
  - destruct (C4_first_defect_decides emptyEngine malformedOffer malformedParsed)
      as (Hparse & _); [reflexivity|].
    apply Hparse. exists [], "abc", []. repeat split; try reflexivity. constructor.
Defined.

(** An offer with two video sections that both declare VP8 at 96, and two
    registrations of the same codec: payload type 96 is in the registry
    twice. *)
Lemma C5_counterexample :
  PopulateFromSDP emptyEngine twoVideoOffer =
    ({| codecs := [NewRTPVP8Codec 96 90000; NewRTPVP8Codec 96 90000] |}, None)
  /\ ~ NoDup (map PayloadType (codecs (fst (PopulateFromSDP emptyEngine twoVideoOffer))))
  /\ ~ NoDup (map PayloadType
                (codecs (registerAll emptyEngine
                           [NewRTPVP8Codec 96 90000; NewRTPVP8Codec 96 90000]))).
Proof.
  repeat split; try reflexivity.
  - intros Hnd. vm_compute in Hnd. inversion Hnd as [|? ? Hnotin _]; subst.
    apply Hnotin. now left.
  - intros Hnd. vm_compute in Hnd. inversion Hnd as [|? ? Hnotin _]; subst.
    apply Hnotin. now left.
Qed.

Lemma C5_unique_when_declared_once_witness :
  NoDup (map PayloadType
           (codecs (registerAll emptyEngine
                      [NewRTPOpusCodec 111 48000; NewRTPVP8Codec 96 90000])))
  /\ NoDup (map PayloadType (codecs (fst (PopulateFromSDP emptyEngine publisherOffer)))).
Proof.
  split.
  - apply (proj1 C5_unique_when_declared_once).
    simpl. repeat constructor; simpl; intuition discriminate.
  - apply (proj2 C5_unique_when_declared_once publisherOffer publisherParsed).
    + reflexivity.
    + reflexivity.
    + vm_compute. repeat constructor; simpl; intuition discriminate.
Defined.

(** The codec that the VP9 case builds has a known name and no
    payloader. *)
Lemma C6_counterexample :
  built (setSDPFmtpLine (NewRTPVP9Codec 98 90000) "profile-id=0")
  /\ knownName (Name (setSDPFmtpLine (NewRTPVP9Codec 98 90000) "profile-id=0")) = true
  /\ ~ (Payloader_ (setSDPFmtpLine (NewRTPVP9Codec 98 90000) "profile-id=0") <> None).
Proof.
  repeat split.
  - exists (rtpmap 98 "VP9" 90000 "" "profile-id=0"), 98. reflexivity.
  - intros Hne. now apply Hne.
Qed.

Lemma C6_payloader_by_name_witness :
  Payloader_ (setSDPFmtpLine (NewRTPVP8Codec 96 90000) "")
  = Payloader_ (setSDPFmtpLine (NewRTPVP8Codec 100 90000) "max-fs=12288")
  /\ Payloader_ (setSDPFmtpLine (NewRTPVP8Codec 96 90000) "") = payloaderOf VP8
  /\ (Payloader_ (setSDPFmtpLine (NewRTPVP8Codec 96 90000) "") = None <-> VP8 = VP9).
Proof.
  apply (C6_payloader_by_name (setSDPFmtpLine (NewRTPVP8Codec 96 90000) "")
           (setSDPFmtpLine (NewRTPVP8Codec 100 90000) "max-fs=12288")).
  - exists (rtpmap 96 "VP8" 90000 "" ""), 96. reflexivity.
  - exists (rtpmap 100 "VP8" 90000 "" "max-fs=12288"), 100. reflexivity.
  - reflexivity.
  - reflexivity.
Defined.

Lemma C7_forwarding_policy_witness :
  forwardingLoop attachedRelay [closedPipeTurn; deliveredTurn] =
    forwardingLoop {| written := written attachedRelay ++ [(packet2, Some ErrClosedPipe)];
                      subscribers := subscribers attachedRelay |} [deliveredTurn]
  /\ forwardingLoop attachedRelay [brokenWriteTurn; deliveredTurn] =
     Panicked {| written := written attachedRelay
                            ++ [(packet2, Some (ErrOther "write: connection refused"))];
                 subscribers := subscribers attachedRelay |}
              (PanicIO (ErrOther "write: connection refused"))
  /\ forwardingLoop attachedRelay [endOfStreamTurn; deliveredTurn] =
     Panicked attachedRelay (PanicIO (ErrOther "EOF")).
Proof.
  split; [|split].
  - apply (proj1 (C7_forwarding_policy attachedRelay closedPipeTurn [deliveredTurn]));
      reflexivity.
  - apply (proj1 (proj2 (C7_forwarding_policy attachedRelay brokenWriteTurn [deliveredTurn])));
      reflexivity.
  - apply (proj1 (proj2 (proj2 (C7_forwarding_policy attachedRelay endOfStreamTurn
                                  [deliveredTurn]))));
      reflexivity.
Defined.

Lemma C8_no_VP8_not_found_witness :
  preferredCodec VP8 audioOffer = inr (ErrNoCodecInDescription VP8)
  /\ (exists err, firstCodecOfType {| codecs := [NewRTPOpusCodec 109 48000] |} VP8
                    RTPCodecTypeVideo = inr err
                  /\ isCodecNotFound err = true).
Proof.
  apply (C8_no_VP8_not_found audioOffer {| codecs := [NewRTPOpusCodec 109 48000] |}).
  - reflexivity.
  - intros c [<-|[]]. discriminate.
Defined.

Lemma C10_selection_equivalent_witness :
  match preferredCodec VP8 subscriberOffer,
        firstCodecOfType {| codecs := [NewRTPVP8Codec 100 90000] |} VP8 RTPCodecTypeVideo with
  | inl codec, inl payloadType => PayloadType codec = payloadType
  | inr err1, inr err2 => isCodecNotFound err1 = true /\ isCodecNotFound err2 = true
  | _, _ => False
  end.
Proof.
  apply (C10_selection_equivalent subscriberOffer {| codecs := [NewRTPVP8Codec 100 90000] |}).
  reflexivity.
Defined.

(** ** The further properties on concrete engines, offers and scripts *)

Lemma getCodec_first_match_witness :
  getCodec (registerAll emptyEngine [NewRTPVP8Codec 96 90000; NewRTPVP9Codec 96 90000]) 96
    = inl (NewRTPVP8Codec 96 90000)
  /\ getCodec (registerAll emptyEngine [NewRTPVP8Codec 96 90000; NewRTPVP9Codec 96 90000]) 98
     = inr ErrCodecNotFound.
Proof.
  split.
  - apply (proj1 (getCodec_first_match _ 96)).
    exists [], [NewRTPVP9Codec 96 90000]. repeat split. intros c' [].
  - apply (proj2 (getCodec_first_match _ 98)).
    intros c [<-|[<-|[]]]; discriminate.
Defined.

Lemma getCodec_after_RegisterCodec_witness :
  getCodec (snd (RegisterCodec (RegisterDefaultCodecs emptyEngine) (NewRTPVP8Codec 100 90000)))
           (fst (RegisterCodec (RegisterDefaultCodecs emptyEngine) (NewRTPVP8Codec 100 90000)))
  = inl (NewRTPVP8Codec 100 90000).
Proof.
  apply (getCodec_after_RegisterCodec (RegisterDefaultCodecs emptyEngine)
           (NewRTPVP8Codec 100 90000)).
  intros c [<-|[<-|[<-|[<-|[<-|[]]]]]]; discriminate.
Defined.

Lemma getCodec_stable_witness :
  (forall cs, getCodec (registerAll (RegisterDefaultCodecs emptyEngine) cs) 96
              = inl (NewRTPVP8Codec 96 90000))
  /\ (forall sd, getCodec (fst (PopulateFromSDP (RegisterDefaultCodecs emptyEngine) sd)) 96
                 = inl (NewRTPVP8Codec 96 90000)).
Proof.
  apply (getCodec_stable (RegisterDefaultCodecs emptyEngine) 96 (NewRTPVP8Codec 96 90000)).
  reflexivity.
Defined.

Lemma PopulateFromSDP_keeps_earlier_witness :
  PopulateFromSDP (lib := moreLibrary) emptyEngine lateDefectOffer =
  ({| codecs := [NewRTPVP8Codec 96 90000] |}, Some ErrFormatParse).
Proof.
  apply (PopulateFromSDP_keeps_earlier (lib := moreLibrary) emptyEngine lateDefectOffer
           lateDefectParsed ["96"] ["98"] "abc").
  - reflexivity.
  - reflexivity.
  - repeat constructor. eexists; reflexivity.
  - reflexivity.
Defined.

Lemma getCodec_after_PopulateFromSDP_witness :
  (exists c, getCodec (fst (PopulateFromSDP emptyEngine publisherOffer)) 102 = inl c
             /\ contribution publisherParsed "102" = [c]
             /\ PayloadType c = 102 /\ Name c = "H264"
             /\ ClockRate (Capability c) = 90000)
  /\ getCodec (fst (PopulateFromSDP emptyEngine publisherOffer)) 97 = inr ErrCodecNotFound
  /\ getCodec (fst (PopulateFromSDP emptyEngine publisherOffer)) 100 = inr ErrCodecNotFound.
Proof.
  destruct (getCodec_after_PopulateFromSDP publisherOffer publisherParsed
              (fst (PopulateFromSDP emptyEngine publisherOffer)))
    as (Hdeclared & Hother); [reflexivity|reflexivity|].
  split; [|split].
  - apply (Hdeclared "102" 102 (rtpmap 102 "H264" 90000 "" "packetization-mode=1"));
      [simpl; tauto|reflexivity|reflexivity].
  - apply (Hdeclared "97" 97 (rtpmap 97 "rtx" 90000 "" "apt=96"));
      [simpl; tauto|reflexivity|reflexivity].
  - apply Hother. vm_compute. intuition discriminate.
Defined.

Lemma getCodecSDP_first_match_witness :
  (exists pre post,
      codecs (RegisterDefaultCodecs emptyEngine) = pre ++ NewRTPOpusCodec 111 48000 :: post
      /\ agrees (NewRTPOpusCodec 111 48000)
                (rtpmap 109 "opus" 48000 "2" "minptime=10;useinbandfec=1")
      /\ forall c', In c' pre ->
                    ~ agrees c' (rtpmap 109 "opus" 48000 "2" "minptime=10;useinbandfec=1"))
  /\ getCodecSDP (RegisterDefaultCodecs emptyEngine) (rtpmap 109 "opus" 48000 "1" "")
     = inr ErrCodecNotFound.
Proof.
  split.
  - apply (proj1 (getCodecSDP_first_match (RegisterDefaultCodecs emptyEngine)
                    (rtpmap 109 "opus" 48000 "2" "minptime=10;useinbandfec=1"))).
    reflexivity.
  - apply (proj2 (getCodecSDP_first_match (RegisterDefaultCodecs emptyEngine)
                    (rtpmap 109 "opus" 48000 "1" ""))).
    intros c [<-|[<-|[<-|[<-|[<-|[]]]]]] (HN & _ & _ & HF); discriminate.
Defined.

Lemma getCodecSDP_finds_video_witness :
  exists c, getCodecSDP (fst (PopulateFromSDP emptyEngine publisherOffer))
                        (rtpmap 98 "VP9" 90000 "" "profile-id=0") = inl c
            /\ In c (codecs (fst (PopulateFromSDP emptyEngine publisherOffer)))
            /\ Name c = "VP9"
            /\ ClockRate (Capability c) = 90000
            /\ SDPFmtpLine (Capability c) = "profile-id=0".
Proof.
  apply (getCodecSDP_finds_video publisherOffer publisherParsed
           (fst (PopulateFromSDP emptyEngine publisherOffer)) "98"
           (rtpmap 98 "VP9" 90000 "" "profile-id=0")).
  - reflexivity.
  - reflexivity.
  - simpl; tauto.
  - reflexivity.
  - right; left; reflexivity.
  - reflexivity.
Defined.

Lemma getCodecSDP_misses_audio_witness :
  bound audioParsed "109"
    = Some (rtpmap 109 "opus" 48000 "2" "maxplaybackrate=48000;stereo=1;useinbandfec=1")
  /\ getCodecSDP (fst (PopulateFromSDP emptyEngine audioOffer))
       (rtpmap 109 "opus" 48000 "2" "maxplaybackrate=48000;stereo=1;useinbandfec=1")
     = inr ErrCodecNotFound.
Proof.
  split; [reflexivity|].
  apply (getCodecSDP_misses_audio audioOffer
           (rtpmap 109 "opus" 48000 "2" "maxplaybackrate=48000;stereo=1;useinbandfec=1")).
  left. split; [reflexivity|discriminate].
Defined.

Lemma preferredCodec_unknown_name_witness :
  advertises publisherParsed "rtx" "97"
  /\ preferredCodec "rtx" publisherOffer = inr (ErrNoCodecInDescription "rtx")
  /\ preferredCodec "vp8" publisherOffer = inr (ErrNoCodecInDescription "vp8").
Proof.
  split; [|split].
  - eexists; split; reflexivity.
  - rewrite (preferredCodec_unknown_name "rtx" publisherOffer); reflexivity.
  - rewrite (preferredCodec_unknown_name "vp8" publisherOffer); reflexivity.
Defined.

Lemma first_advertised_any_name_witness :
  exists codec m,
    preferredCodec H264 publisherOffer = inl codec
    /\ PayloadType codec = 102
    /\ Name codec = H264
    /\ Type_ codec = kindOf H264
    /\ ClockRate (Capability codec) = 90000
    /\ PopulateFromSDP emptyEngine publisherOffer = (m, None)
    /\ firstCodecOfType m H264 (kindOf H264) = inl 102.
Proof.
  apply (first_advertised_any_name H264 publisherOffer publisherParsed
           ["111"; "96"; "97"; "98"] [] "102"
           (rtpmap 102 "H264" 90000 "" "packetization-mode=1") 102).
  - reflexivity.
  - reflexivity.
  - repeat constructor; eexists; reflexivity.
  - reflexivity.
  - intros g [<-|[<-|[<-|[<-|[]]]]] (pc & Hb & HN); vm_compute in Hb;
      inversion Hb; subst; discriminate HN.
  - reflexivity.
  - reflexivity.
  - reflexivity.
Defined.

Lemma firstCodecOfType_cases_witness :
  firstCodecOfType (RegisterDefaultCodecs emptyEngine) H264 RTPCodecTypeVideo = inl 102
  /\ firstCodecOfType {| codecs := [NewRTPOpusCodec 111 48000] |} VP8 RTPCodecTypeVideo
     = inr (ErrNoCodecsFound "video")
  /\ firstCodecOfType {| codecs := [NewRTPVP9Codec 98 90000] |} VP8 RTPCodecTypeVideo
     = inr (ErrNoCodecsFound "VP8").
Proof.
  split; [|split].
  - apply (proj1 (firstCodecOfType_cases (RegisterDefaultCodecs emptyEngine) H264
                    RTPCodecTypeVideo)
             [NewRTPOpusCodec 111 48000; NewRTPG722Codec 9 8000; NewRTPVP8Codec 96 90000]
             (NewRTPH264Codec 102 90000) [NewRTPVP9Codec 98 90000]);
      try reflexivity.
    intros c' [<-|[<-|[<-|[]]]] [HT HN]; discriminate.
  - apply (proj1 (proj2 (firstCodecOfType_cases {| codecs := [NewRTPOpusCodec 111 48000] |}
                           VP8 RTPCodecTypeVideo))).
    intros c [<-|[]]; discriminate.
  - apply (proj2 (proj2 (firstCodecOfType_cases {| codecs := [NewRTPVP9Codec 98 90000] |}
                           VP8 RTPCodecTypeVideo)) (NewRTPVP9Codec 98 90000));
      [now left|reflexivity|].
    intros c [<-|[]] _; discriminate.
Defined.

Lemma PopulateFromSDP_invariants_witness :
  strconv.Atoi "352" = Some 352
  /\ codecs (fst (PopulateFromSDP (lib := moreLibrary) emptyEngine wideOffer))
     = [NewRTPVP8Codec 96 90000]
  /\ 0 <= PayloadType (NewRTPVP8Codec 96 90000) < 256
  /\ knownName (Name (NewRTPVP8Codec 96 90000)) = true
  /\ Type_ (NewRTPVP8Codec 96 90000) = kindOf (Name (NewRTPVP8Codec 96 90000))
  /\ Channels (Capability (NewRTPVP8Codec 96 90000))
     = channelsOf (Name (NewRTPVP8Codec 96 90000))
  /\ MimeType (Capability (NewRTPVP8Codec 96 90000))
     = (RTPCodecType_String (Type_ (NewRTPVP8Codec 96 90000)) ++ "/"
        ++ Name (NewRTPVP8Codec 96 90000))%string
  /\ RTCPFeedback_ (Capability (NewRTPVP8Codec 96 90000)) = [].
Proof.
  split; [reflexivity|]. split; [reflexivity|].
  apply (PopulateFromSDP_invariants (lib := moreLibrary) wideOffer (NewRTPVP8Codec 96 90000)).
  now left.
Defined.

Lemma forwardingLoop_forwards_all_witness :
  forwardingLoop attachedRelay [closedPipeTurn; deliveredTurn] =
  Running {| written := [(packet1, None); (packet2, Some ErrClosedPipe); (packet2, None)];
             subscribers := subscribers attachedRelay |}.
Proof.
  apply (forwardingLoop_forwards_all attachedRelay [closedPipeTurn; deliveredTurn]).
  repeat constructor.
Defined.

Lemma forwardingLoop_first_fatal_witness :
  forwardingLoop attachedRelay [deliveredTurn; endOfStreamTurn; deliveredTurn] =
    Panicked {| written := [(packet1, None); (packet2, None)];
                subscribers := subscribers attachedRelay |} (PanicIO (ErrOther "EOF"))
  /\ forwardingLoop attachedRelay [closedPipeTurn; brokenWriteTurn; deliveredTurn] =
     Panicked {| written := [(packet1, None); (packet2, Some ErrClosedPipe);
                             (packet2, Some (ErrOther "write: connection refused"))];
                 subscribers := subscribers attachedRelay |}
              (PanicIO (ErrOther "write: connection refused")).
Proof.
  split.
  - apply (forwardingLoop_first_fatal attachedRelay [deliveredTurn] [deliveredTurn]
             endOfStreamTurn (PanicIO (ErrOther "EOF")));
      [repeat constructor|reflexivity].
  - apply (forwardingLoop_first_fatal attachedRelay [closedPipeTurn] [deliveredTurn]
             brokenWriteTurn (PanicIO (ErrOther "write: connection refused")));
      [repeat constructor|reflexivity].
Defined.

Lemma run_append_only_witness :
  subscribers (relayOf (run PreferredCodecExample (Running attachedRelay)
                          [Packet deliveredTurn; Packet brokenWriteTurn]))
    = subscribers attachedRelay
  /\ written (relayOf (run PreferredCodecExample (Running attachedRelay)
                         [Offer subscriberOffer None; Offer audioOffer None]))
     = written attachedRelay.
Proof.
  split.
  - apply (proj1 (proj2 (proj2 (run_append_only PreferredCodecExample (Running attachedRelay)
                                  [Packet deliveredTurn; Packet brokenWriteTurn])))).
    intros e [<-|[<-|[]]]; eexists; reflexivity.
  - apply (proj2 (proj2 (proj2 (run_append_only PreferredCodecExample (Running attachedRelay)
                                  [Offer subscriberOffer None; Offer audioOffer None])))).
    intros e [<-|[<-|[]]]; eexists; eexists; reflexivity.
Defined.

Lemma offers_attach_in_order_witness :
  run FirstCodecOfTypeExample (Running attachedRelay)
      [Offer subscriberOffer None; Offer publisherOffer None] =
  Running {| written := written attachedRelay;
             subscribers := subscribers attachedRelay ++ [vp8Engine 100; vp8Engine 96] |}.
Proof.
  apply (offers_attach_in_order FirstCodecOfTypeExample attachedRelay
           [subscriberOffer; publisherOffer] [100; 96]).
  repeat constructor.
Defined.

Lemma RegisterDefaultCodecs_lookups_witness :
  getCodec (RegisterDefaultCodecs {| codecs := [NewRTPVP8Codec 100 90000] |}) 98
  = inl (NewRTPVP9Codec 98 90000).
Proof.
  apply (proj1 (proj2 (RegisterDefaultCodecs_lookups
                         {| codecs := [NewRTPVP8Codec 100 90000] |}))
           (NewRTPVP9Codec 98 90000)).
  - simpl; tauto.
  - intros c' [<-|[]]; discriminate.
Defined.

Lemma NewRTPCodecType_of_String_witness :
  NewRTPCodecType (folding := asciiFolding) (RTPCodecType_String RTPCodecTypeVideo)
  = RTPCodecTypeVideo.
Proof.
  apply (NewRTPCodecType_of_String (folding := asciiFolding) RTPCodecTypeVideo);
    try reflexivity.
  now right.
Defined.
